(** * Civic issue detection service: the inference-time core of [main.py]

    A shallow embedding of the FastAPI service in
    [civickural/heck1/main.py]: the image preprocessing
    ([preprocess_image]), the dual-head prediction decoding
    ([predict_issue_and_severity]) and the two endpoints ([predict_issue],
    [health_check]), followed by the properties the specification states
    about them.

    Python exceptions are an error monad, the calls to [model.predict] are
    logged in a trace, dictionaries are [gmap]s keyed by strings, and
    floating-point numbers are IEEE 754 data ([spec_float]). *)

From Stdlib Require Import ZArith List Ascii String Lia.
From Stdlib.Strings Require Import Byte.
From Stdlib Require Import Floats.SpecFloat Floats.PrimFloat Floats.FloatOps.
From stdpp Require Import base option list strings pretty gmap.

Local Open Scope string_scope.
Local Open Scope Z_scope.

(** ** Floating-point data

    A numpy element or a Python float is an IEEE 754 datum.  [model.predict]
    yields [float32] arrays, a Python float is a binary64; the decoder only
    compares and copies elements, so one type of data serves both. *)
Module Float.

Definition t : Type := spec_float.

(** A Python float literal, e.g. [lit 0.7]. *)
Definition lit (x : PrimFloat.float) : t := Prim2SF x.

Definition is_nan (x : t) : bool :=
  match x with S754_nan => true | _ => false end.

(** [x <= y] and [x < y] on two data of one format, false when either is
    a NaN. *)
Definition leb : t -> t -> bool := SFleb.
Definition ltb : t -> t -> bool := SFltb.

(** [float(x)] on a numpy scalar: widening a [float32] to a binary64 keeps
    the datum. *)
Definition float (x : t) : t := x.

(** Parameters of numpy's [float32]. *)
Definition prec32 : Z := 24.
Definition emax32 : Z := 128.

(** [np.float32(n)] for an integer [n] (exact when [|n| < 2^24]). *)
Definition float32_of_Z (n : Z) : t := binary_normalize prec32 emax32 n 0 false.

(** Division of two [float32] data, rounded to nearest even. *)
Definition div32 : t -> t -> t := SFdiv prec32 emax32.

Definition zero : t := S754_zero false.
Definition one32 : t := float32_of_Z 1.

End Float.

(** ** Python exceptions *)

(** The exceptions that the service raises or meets.  [HTTPException] is
    FastAPI's (a direct subclass of [Exception]); [OtherError] stands for any
    other subclass of [Exception] that is neither a [ValueError] nor a
    [RuntimeError]. *)
Inductive Exception : Type :=
| ValueError (msg : string)
| RuntimeError (msg : string)
| KeyError (msg : string)
| IndexError (msg : string)
| OtherError (msg : string)
| HTTPException (status_code : Z) (detail : string).

(** The classes named by the [except] clauses of [main.py]. *)
Inductive exc_class : Type := ExceptionC | ValueErrorC | RuntimeErrorC.

Definition isinstance (e : Exception) (c : exc_class) : bool :=
  match c, e with
  | ExceptionC, _ => true
  | ValueErrorC, ValueError _ => true
  | RuntimeErrorC, RuntimeError _ => true
  | _, _ => false
  end.

Definition HTTP_400_BAD_REQUEST : Z := 400.
Definition HTTP_500_INTERNAL_SERVER_ERROR : Z := 500.

(** Decimal rendering of a status code (three digits). *)
Definition digit (n : Z) : ascii := ascii_of_nat (48 + Z.to_nat (n mod 10)).
Definition status_str (n : Z) : string :=
  String (digit (n / 100)) (String (digit (n / 10)) (String (digit n) EmptyString)).

(** [str(e)]: the message of a built-in exception; Starlette renders an
    [HTTPException] as ["<status_code>: <detail>"]. *)
Definition str (e : Exception) : string :=
  match e with
  | ValueError m | RuntimeError m | KeyError m | IndexError m | OtherError m => m
  | HTTPException c d => status_str c ++ ": " ++ d
  end.

(** ** Fallible pure code *)

Inductive result (A : Type) : Type :=
| Ok (a : A)
| Raise (e : Exception).
Arguments Ok {A} a.
Arguments Raise {A} e.

#[global] Instance result_ret : MRet result := fun A a => Ok a.
#[global] Instance result_bind : MBind result := fun A B f r =>
  match r with
  | Ok a => f a
  | Raise e => Raise e
  end.

#[global] Instance result_fmap : FMap result := fun A B f r =>
  match r with
  | Ok a => Ok (f a)
  | Raise e => Raise e
  end.

(** [try: body / except Exception as e: raise h(e)] *)
Definition try_wrap {A} (body : result A) (h : Exception -> Exception) : result A :=
  match body with
  | Ok a => Ok a
  | Raise e => Raise (h e)
  end.

Definition from_option {A} (o : option A) (e : Exception) : result A :=
  match o with
  | Some a => Ok a
  | None => Raise e
  end.

(** ** numpy arrays and [np.argmax] *)

Abbreviation vector := (list Float.t).
(** A model output: one row of class probabilities per batch element. *)
Abbreviation batch := (list (list Float.t)).
(** An array of rank 3 ([height; width; channels]) and a model input of rank 4. *)
Abbreviation array3 := (list (list (list Float.t))).
Abbreviation array4 := (list (list (list (list Float.t)))).

(** numpy's floating-point arg-max loop: [mp] is the maximum so far and
    [max_ind] its index; an element replaces it when [!(x <= mp)], and a NaN
    ends the scan. *)
Fixpoint argmax_loop (ip : vector) (i : nat) (mp : Float.t) (max_ind : nat) : nat :=
  match ip with
  | [] => max_ind
  | x :: ip' =>
      if negb (Float.leb x mp) then
        if Float.is_nan x then i else argmax_loop ip' (S i) x i
      else argmax_loop ip' (S i) mp max_ind
  end.

Definition argmax (a : vector) : result nat :=
  match a with
  | [] => Raise (ValueError "attempt to get argmax of an empty sequence")
  | x :: ip => Ok (if Float.is_nan x then 0%nat else argmax_loop ip 1 x 0)
  end.

(** [l[i]] on a Python list. *)
Definition getitem {A} (l : list A) (i : nat) : result A :=
  from_option (l !! i) (IndexError "list index out of range").

(** [a[i]] on the first axis of a numpy array; the message of the
    [IndexError] names the index and the size of the axis. *)
Definition array_getitem {A} (a : list A) (i : nat) : result A :=
  from_option (a !! i)
    (IndexError ("index " ++ pretty i ++ " is out of bounds for axis 0 with size " ++
                 pretty (length a))).

(** ** Configuration *)

Definition MODEL_INPUT_SIZE : nat * nat := (224%nat, 224%nat).

Definition ISSUE_CLASSES : list string :=
  ["pothole"; "garbage"; "broken_streetlight"; "waterlogging"].
Definition SEVERITY_CLASSES : list string := ["low"; "medium"; "high"].

(** A Python set of strings.  The handler tests membership in it and, to
    print the detail of a rejection, iterates over it; the order of that
    iteration varies with the hash seed of the process.  The list stands for
    the set with the order of the literal: the properties below rest on
    membership alone, and none of them states the text printed from the
    iteration. *)
Definition ALLOWED_EXTENSIONS : list string :=
  [".jpg"; ".jpeg"; ".png"; ".JPG"; ".JPEG"; ".PNG"].

(** ** Prediction logic *)

(** What [model.predict] returns: a dictionary keyed by output name, or a
    sequence of outputs in the order of the model's heads. *)
Inductive Predictions : Type :=
| PredDict (d : gmap string batch)
| PredSeq (l : list batch).

(** The values of the dictionary that [predict_issue_and_severity] returns. *)
Inductive PyVal : Type :=
| VStr (s : string)
| VFloat (x : Float.t).

(** [d[k]] on a dictionary. *)
Definition dict_getitem {V} (d : gmap string V) (k : string) : result V :=
  from_option (d !! k) (KeyError ("'" ++ k ++ "'")).

(** Extraction of the two heads from what the model returned (lines
    181-187): by output name from a dictionary, by position otherwise; each
    head is the first row of its batch. *)
Definition extract_outputs (predictions : Predictions) : result (vector * vector) :=
  match predictions with
  | PredDict d =>
      issue_probs ← dict_getitem d "issue_output" ≫= (fun b => array_getitem b 0);
      severity_probs ← dict_getitem d "severity_output" ≫= (fun b => array_getitem b 0);
      mret (issue_probs, severity_probs)
  | PredSeq l =>
      issue_probs ← getitem l 0 ≫= (fun b => array_getitem b 0);
      severity_probs ← getitem l 1 ≫= (fun b => array_getitem b 0);
      mret (issue_probs, severity_probs)
  end.

(** The dictionary that [predict_issue_and_severity] returns (lines
    203-208). *)
Definition prediction_dict (issue_type severity : string)
    (confidence severity_confidence : Float.t) : gmap string PyVal :=
  <["issue_type" := VStr issue_type]>
    (<["severity" := VStr severity]>
      (<["confidence" := VFloat confidence]>
        (<["severity_confidence" := VFloat severity_confidence]> ∅))).

(** Decoding of the two probability vectors (lines 189-208). *)
Definition decode_outputs (issue_probs severity_probs : vector) : result (gmap string PyVal) :=
  issue_idx ← argmax issue_probs;
  severity_idx ← argmax severity_probs;
  issue_type ← getitem ISSUE_CLASSES issue_idx;
  severity ← getitem SEVERITY_CLASSES severity_idx;
  confidence ← Float.float <$> array_getitem issue_probs issue_idx;
  severity_confidence ← Float.float <$> array_getitem severity_probs severity_idx;
  mret (prediction_dict issue_type severity confidence severity_confidence).

(** The body of the [try] block of [predict_issue_and_severity] after the
    call to [model.predict] (lines 181-208). *)
Definition decode_predictions (predictions : Predictions) : result (gmap string PyVal) :=
  '(issue_probs, severity_probs) ← extract_outputs predictions;
  decode_outputs issue_probs severity_probs.

(** ** Effects: the trace of calls to the model

    A request runs against a trace that records every call of
    [model.predict]; an exception ends the computation and keeps the trace. *)

Record Model : Type := { predict : array4 -> result Predictions }.

Inductive event : Type :=
| ModelPredict (image_array : array4).

Definition Py (A : Type) : Type := list event -> result A * list event.

#[global] Instance Py_ret : MRet Py := fun A a t => (Ok a, t).
#[global] Instance Py_bind : MBind Py := fun A B f m t =>
  match m t with
  | (Ok a, t') => f a t'
  | (Raise e, t') => (Raise e, t')
  end.

Definition raise {A} (e : Exception) : Py A := fun t => (Raise e, t).
Definition lift {A} (r : result A) : Py A := fun t => (r, t).

(** [model.predict(image_array, verbose=0)] *)
Definition model_predict (m : Model) (image_array : array4) : Py Predictions :=
  fun t => (predict m image_array, (t ++ [ModelPredict image_array])%list).

(** [try: body / except C1 as e: h1 / except C2 as e: h2 ...]: the first
    clause whose class the exception is an instance of handles it; with no
    such clause the exception propagates. *)
Definition try_except {A} (body : Py A)
    (clauses : list (exc_class * (Exception -> Py A))) : Py A :=
  fun t =>
    match body t with
    | (Ok a, t') => (Ok a, t')
    | (Raise e, t') =>
        match find (fun c => isinstance e (fst c)) clauses with
        | Some (_, h) => h e t'
        | None => (Raise e, t')
        end
    end.

(** [predict_issue_and_severity] (lines 155-211); [model] is the global
    model handle. *)
Definition predict_issue_and_severity (model : option Model) (image_array : array4)
    : Py (gmap string PyVal) :=
  match model with
  | None => raise (RuntimeError "Model not loaded. Please restart the service.")
  | Some m =>
      try_except
        (predictions ← model_predict m image_array;
         lift (decode_predictions predictions))
        [(ExceptionC, fun e => raise (RuntimeError ("Model inference failed: " ++ str e)))]
  end.

(** ** Images (Pillow) *)

(** A decoded image: its mode, its size (width, height) and its pixels, one
    [uint8] per band, addressed by column, row and band.  (The service reads
    pixels only from RGB images, whose samples are [uint8]; the samples of
    any other mode are read by Pillow alone.) *)
Record Image : Type := {
  mode : string;
  size : nat * nat;
  getpixel : nat -> nat -> nat -> byte
}.

Inductive Resampling : Type := NEAREST | BOX | BILINEAR | HAMMING | BICUBIC | LANCZOS.

(** What Pillow computes and this development leaves open: the decoder and
    the pixel values of a converted or resampled image.  Pillow reads the
    pixels lazily: [Image.open] parses the header, and the pixel data are
    decoded by the first operation that needs them ([convert] or [resize]
    here).  [Image_open] stands for both steps, so that a buffer "decodes"
    when the header and the pixel data can be read, and a failure of either
    step is a failure of [Image_open]; all of them happen inside the one
    [try] block of [preprocess_image]. *)
Class Pillow : Type := {
  Image_open : list byte -> result Image;
  convert_pixels : Image -> string -> nat -> nat -> nat -> byte;
  resize_pixels : Image -> nat * nat -> Resampling -> nat -> nat -> nat -> byte
}.

(** Number of bands of a mode ([len(image.getbands())]). *)
Definition bands (m : string) : nat :=
  if bool_decide (m ∈ ["RGB"; "YCbCr"; "LAB"; "HSV"]) then 3%nat
  else if bool_decide (m ∈ ["RGBA"; "CMYK"; "RGBX"; "RGBa"]) then 4%nat
  else if bool_decide (m ∈ ["LA"; "PA"; "La"]) then 2%nat
  else 1%nat.

Definition tabulate {A} (n : nat) (f : nat -> A) : list A := map f (seq 0 n).

Definition float32_of_uint8 (b : byte) : Float.t :=
  Float.float32_of_Z (Z.of_N (Byte.to_N b)).

(** [np.array(image, dtype=np.float32)] for an image of several bands: an
    array of shape [height; width; bands]. *)
Definition np_array (image : Image) : array3 :=
  let '(width, height) := size image in
  tabulate height (fun y =>
    tabulate width (fun x =>
      tabulate (bands (mode image)) (fun c =>
        float32_of_uint8 (getpixel image x y c)))).

(** [a / 255.0] elementwise, in [float32]. *)
Definition divide_255 (a : array3) : array3 :=
  map (map (map (fun v => Float.div32 v (Float.float32_of_Z 255)))) a.

(** [np.expand_dims(a, axis=0)] *)
Definition expand_dims (a : array3) : array4 := [a].

Section Preprocessing.
Context `{Pillow}.

(** [image.convert(m)] on a decoded image: same size, mode [m]. *)
Definition convert (image : Image) (m : string) : Image :=
  {| mode := m; size := size image; getpixel := convert_pixels image m |}.

(** [image.resize(sz, resample)] on a decoded image: same mode, size
    [sz]. *)
Definition resize (image : Image) (sz : nat * nat) (resample : Resampling) : Image :=
  {| mode := mode image; size := sz; getpixel := resize_pixels image sz resample |}.

(** [preprocess_image] (lines 109-149). *)
Definition preprocess_image (image_bytes : list byte) : result array4 :=
  try_wrap
    (image ← Image_open image_bytes;
     let image := if negb (String.eqb (mode image) "RGB") then convert image "RGB" else image in
     let image := resize image MODEL_INPUT_SIZE LANCZOS in
     let img_array := np_array image in
     let img_array := divide_255 img_array in
     let img_array := expand_dims img_array in
     mret img_array)
    (fun e => ValueError ("Image preprocessing failed: " ++ str e)).

End Preprocessing.

(** ** [os.path.splitext] (POSIX) *)
Module os_path.

(** [p.rfind(c)]: the highest index of [c] in [p], or [-1]. *)
Fixpoint rfind_from (p : list ascii) (c : ascii) (i found : Z) : Z :=
  match p with
  | [] => found
  | a :: p' => rfind_from p' c (i + 1) (if Ascii.eqb a c then i else found)
  end.

Definition rfind (p : list ascii) (c : ascii) : Z := rfind_from p c 0 (-1).

(** [p[:i]] and [p[i:]] for [0 <= i]. *)
Definition slice_to (p : list ascii) (i : Z) : string :=
  string_of_list_ascii (take (Z.to_nat i) p).
Definition slice_from (p : list ascii) (i : Z) : string :=
  string_of_list_ascii (drop (Z.to_nat i) p).

(** The loop [while filenameIndex < dotIndex] that skips the leading dots
    of the base name; [n] is [dotIndex - filenameIndex].  [Some] is the
    [return] inside the loop, [None] its normal end. *)
Fixpoint skip_leading_dots (n : nat) (p : list ascii) (filenameIndex dotIndex : Z)
    : option (string * string) :=
  match n with
  | O => None
  | S n' =>
      match p !! Z.to_nat filenameIndex with
      | Some "."%char => skip_leading_dots n' p (filenameIndex + 1) dotIndex
      | _ => Some (slice_to p dotIndex, slice_from p dotIndex)
      end
  end.

Definition splitext (p : string) : string * string :=
  let l := list_ascii_of_string p in
  let sepIndex := rfind l "/" in
  let dotIndex := rfind l "." in
  if dotIndex >? sepIndex then
    let filenameIndex := sepIndex + 1 in
    match skip_leading_dots (Z.to_nat (dotIndex - filenameIndex)) l filenameIndex dotIndex with
    | Some r => r
    | None => (p, "")
    end
  else (p, "").

End os_path.

(** [sep.join(l)] *)
Fixpoint join (sep : string) (l : list string) : string :=
  match l with
  | [] => ""
  | [x] => x
  | x :: l' => x ++ sep ++ join sep l'
  end.

(** ** Requests and responses *)

(** An uploaded file: its name and the bytes that [file.read()] returns. *)
Record UploadFile : Type := { filename : string; content : list byte }.

Definition read (file : UploadFile) : Py (list byte) := mret (content file).

Record PredictionResponse : Type := {
  issue_type : string;
  severity : string;
  confidence : Float.t
}.

Record HealthResponse : Type := { status : string; model_loaded : bool }.

(** Construction of a [PredictionResponse] from Python values; pydantic's
    [ValidationError] is a [ValueError]. *)
Definition validate_str (v : PyVal) : result string :=
  match v with
  | VStr s => Ok s
  | VFloat _ => Raise (ValueError "str type expected")
  end.

Definition validate_float (v : PyVal) : result Float.t :=
  match v with
  | VFloat x => Ok x
  | VStr _ => Raise (ValueError "value is not a valid float")
  end.

Definition new_PredictionResponse (it sv cf : PyVal) : result PredictionResponse :=
  it' ← validate_str it;
  sv' ← validate_str sv;
  cf' ← validate_float cf;
  mret {| issue_type := it'; severity := sv'; confidence := cf' |}.

(** ** API endpoints *)

Section Endpoints.
Context `{Pillow}.
(** The global [model], [None] until [load_model] has run. *)
Variable model : option Model.

(** [POST /predict] (lines 217-281). *)
Definition predict_issue (file : UploadFile) : Py PredictionResponse :=
  let file_ext := snd (os_path.splitext (filename file)) in
  if negb (bool_decide (file_ext ∈ ALLOWED_EXTENSIONS)) then
    raise (HTTPException HTTP_400_BAD_REQUEST
             ("Invalid file type. Allowed: " ++ join ", " ALLOWED_EXTENSIONS))
  else
    try_except
      (image_bytes ← read file;
       _ ← (if Nat.eqb (length image_bytes) 0
            then raise (HTTPException HTTP_400_BAD_REQUEST "Empty file uploaded")
            else mret tt);
       image_array ← lift (preprocess_image image_bytes);
       result ← predict_issue_and_severity model image_array;
       lift (it ← dict_getitem result "issue_type";
             sv ← dict_getitem result "severity";
             cf ← dict_getitem result "confidence";
             new_PredictionResponse it sv cf))
      [ (ValueErrorC, fun e =>
           raise (HTTPException HTTP_400_BAD_REQUEST
                    ("Image processing error: " ++ str e)));
        (RuntimeErrorC, fun e =>
           raise (HTTPException HTTP_500_INTERNAL_SERVER_ERROR
                    ("Model inference error: " ++ str e)));
        (ExceptionC, fun e =>
           raise (HTTPException HTTP_500_INTERNAL_SERVER_ERROR
                    ("Unexpected error: " ++ str e))) ].

(** [GET /health] (lines 284-299). *)
Definition health_check : HealthResponse :=
  let model_loaded := match model with None => false | Some _ => true end in
  {| status := if model_loaded then "healthy" else "model_not_loaded";
     model_loaded := model_loaded |}.

End Endpoints.

(** ** What the client receives *)

(** The values found in the bodies of the two endpoints.  [JNum x] is the
    number [x] as the serializer prints it: a decimal for a finite [x], and
    [null] for a NaN or an infinity. *)
Inductive Json : Type :=
| JStr (s : string)
| JNum (x : Float.t)
| JBool (b : bool).

Record Response : Type := { status_code : Z; body : list (string * Json) }.

(** The fields of the response models, in the order of their declaration. *)
Definition PredictionResponse_json (r : PredictionResponse) : list (string * Json) :=
  [("issue_type", JStr (issue_type r));
   ("severity", JStr (severity r));
   ("confidence", JNum (confidence r))].

Definition HealthResponse_json (r : HealthResponse) : list (string * Json) :=
  [("status", JStr (status r)); ("model_loaded", JBool (model_loaded r))].

(** FastAPI's rendering of an endpoint's outcome: the response model on a
    return, the status and detail of an [HTTPException], and a bare 500 for
    any other exception. *)
Definition respond {A} (to_json : A -> list (string * Json)) (r : result A) : Response :=
  match r with
  | Ok a => {| status_code := 200; body := to_json a |}
  | Raise (HTTPException c d) => {| status_code := c; body := [("detail", JStr d)] |}
  | Raise _ => {| status_code := 500; body := [] |}
  end.

(** The answer to a request that has reached the handler: FastAPI has found
    the file part and built the [UploadFile].  (A request without a usable
    file part is answered by FastAPI itself, with a 422, and never runs
    [predict_issue]; such requests are outside this definition.) *)
Definition POST_predict `{Pillow} (model : option Model) (file : UploadFile)
    (t : list event) : Response * list event :=
  let '(r, t') := predict_issue model file t in
  (respond PredictionResponse_json r, t').

Definition GET_health (model : option Model) : Response :=
  respond HealthResponse_json (Ok (health_check model)).

(** ** Vocabulary of the specification *)

Set Warnings "-inexact-float".

(** Lexicographic comparison of exponent and mantissa, as [SFcompare] does
    on two finite data of the same sign. *)
Definition lex (e1 : Z) (m1 : positive) (e2 : Z) (m2 : positive) : comparison :=
  match e1 ?= e2 with
  | Lt => Lt
  | Gt => Gt
  | Eq => (m1 ?= m2)%positive
  end.

(** A vector without NaN, as every probability vector is. *)
Definition no_nan (v : vector) : Prop := Forall (fun x => Float.is_nan x = false) v.

(** The invariant of the arg-max scan: [mp] is the element at [max_ind], no
    element seen so far exceeds it, and every element before [max_ind] is
    strictly smaller. *)
Record scanned (pre : vector) (mp : Float.t) (max_ind : nat) : Prop := {
  scanned_at : pre !! max_ind = Some mp;
  scanned_max : forall j x, pre !! j = Some x -> Float.leb x mp = true;
  scanned_first : forall j x, (j < max_ind)%nat -> pre !! j = Some x -> Float.ltb x mp = true
}.

(** The arg-max index of [probs] exists and has a label in [classes]. *)
Definition label_in_range (classes : list string) (probs : vector) : Prop :=
  exists i, argmax probs = Ok i /\ (i < length classes)%nat.

(** Shapes of regular nested arrays. *)
Definition has_shape3 (h w c : nat) (a : array3) : Prop :=
  length a = h /\ Forall (fun row => length row = w /\ Forall (fun px => length px = c) row) a.
Definition has_shape4 (n h w c : nat) (a : array4) : Prop :=
  length a = n /\ Forall (has_shape3 h w c) a.

(** The closed interval [[0.0, 1.0]] of [float32]. *)
Definition in_unit_interval (x : Float.t) : bool :=
  Float.leb Float.zero x && Float.leb x Float.one32.

Definition all_elements (P : Float.t -> Prop) (a : array4) : Prop :=
  Forall (Forall (Forall (Forall P))) a.

(** Case-insensitive comparison, as the specification words the extension
    check: [s.lower()] on ASCII. *)
Definition lower_ascii (c : ascii) : ascii :=
  let n := nat_of_ascii c in
  if ((65 <=? n) && (n <=? 90))%nat then ascii_of_nat (n + 32) else c.

Fixpoint lower (s : string) : string :=
  match s with
  | EmptyString => EmptyString
  | String c s' => String (lower_ascii c) (lower s')
  end.

Definition extension_allowed_ignoring_case (name : string) : bool :=
  bool_decide (lower (snd (os_path.splitext name)) ∈ [".jpg"; ".jpeg"; ".png"]).

(** The rejection of a file name by the extension check (lines 239-242). *)
Definition invalid_file_type : Exception :=
  HTTPException HTTP_400_BAD_REQUEST
    ("Invalid file type. Allowed: " ++ join ", " ALLOWED_EXTENSIONS).

(** The outcomes of the [try] block of [predict_issue]: a response, or one
    of the three [HTTPException]s of its [except] clauses. *)
Inductive handled : result PredictionResponse -> Prop :=
| handled_ok r : handled (Ok r)
| handled_value_error msg :
    handled (Raise (HTTPException 400 ("Image processing error: " ++ msg)))
| handled_runtime_error msg :
    handled (Raise (HTTPException 500 ("Model inference error: " ++ msg)))
| handled_exception msg :
    handled (Raise (HTTPException 500 ("Unexpected error: " ++ msg))).

(** *** Example data *)

(** The vectors of the specification's decoding example. *)
Definition example_issue_probs : vector := map Float.lit [0.1; 0.7; 0.1; 0.1]%float.
Definition example_severity_probs : vector := map Float.lit [0.2; 0.3; 0.5]%float.
Definition tie_probs : vector := map Float.lit [0.5; 0.5; 0; 0]%float.
Definition other_severity_probs : vector := map Float.lit [0.6; 0.3; 0.1]%float.
Definition short_severity_probs : vector := map Float.lit [0.4; 0.6]%float.
Definition long_severity_probs : vector := map Float.lit [0.1; 0.1; 0.1; 0.7]%float.

(** A stand-in for Pillow on which the service can be run: a non-empty
    buffer decodes to a grey image of one pixel holding its first byte,
    conversion copies that band, and resampling repeats the pixel. *)
Definition one_pixel : Pillow := {|
  Image_open := fun bs =>
    match bs with
    | [] => Raise (OtherError "cannot identify image file")
    | b :: _ => Ok {| mode := "L"; size := (1%nat, 1%nat); getpixel := fun _ _ _ => b |}
    end;
  convert_pixels := fun image _ x y _ => getpixel image x y 0%nat;
  resize_pixels := fun image _ _ _ _ c => getpixel image 0%nat 0%nat c
|}.

(** A model that answers every input with the same predictions. *)
Definition constant_model (p : Predictions) : Model := {| predict := fun _ => Ok p |}.

(** ** Model loading at start-up ([main.py], lines 82-103) *)

Definition MODEL_PATH : string := "civic_issue_severity_model.h5".

(** A file system: the bytes of every file, by path. *)
Abbreviation files := (gmap string (list byte)).

(** [os.path.exists(p)] *)
Definition path_exists (fs : files) (p : string) : bool :=
  bool_decide (is_Some (fs !! p)).

(** What TensorFlow computes and this development leaves open: the loading
    of a model from a path, the reading of [model.input_shape] and of the
    names of [model.outputs] (for the two last prints of [load_model]), and
    the conversion of a model to a TFLite flat buffer. *)
Class TensorFlow : Type := {
  keras_load_model : files -> string -> result Model;
  inspect : Model -> result unit;
  tflite_convert : Model -> result (list byte)
}.

Definition newline : string := String "010"%char EmptyString.

(** [FileNotFoundError(msg)], a subclass of [OSError]. *)
Definition FileNotFoundError (msg : string) : Exception := OtherError msg.

(** [load_model]: the outcome and the global [model] afterwards (what is
    printed is left out).  The function is the start-up handler of the
    application; see [startup] for what a raise means there. *)
Definition load_model `{TensorFlow} (fs : files) (model : option Model)
    : result unit * option Model :=
  if negb (path_exists fs MODEL_PATH) then
    (Raise (FileNotFoundError
              ("Model file not found: " ++ MODEL_PATH ++ newline ++
               "Please ensure civic_issue_severity_model.h5 exists in the project root.")),
     model)
  else
    match keras_load_model fs MODEL_PATH with
    | Raise e => (Raise (RuntimeError ("Failed to load model: " ++ str e)), model)
    | Ok m =>
        match inspect m with
        | Raise e => (Raise (RuntimeError ("Failed to load model: " ++ str e)), Some m)
        | Ok _ => (Ok tt, Some m)
        end
    end.

(** The start of the application ([@app.on_event("startup")], line 82): the
    global [model] is [None] (line 41) when the handler runs; if the handler
    returns, requests are served with the global it left, and if it raises,
    the application does not start and no request is ever served. *)
Definition startup `{TensorFlow} (fs : files) : option (option Model) :=
  match load_model fs None with
  | (Ok _, model) => Some model
  | (Raise _, _) => None
  end.

(** ** The conversion scripts *)

Definition OUTPUT_PATH : string := "civic_issue_severity_model_fp16.tflite".

(** The cross mark that opens the message of [convert_to_tflit.py], in
    UTF-8. *)
Definition cross_mark : string :=
  String "226"%char (String "157"%char (String "140"%char EmptyString)).

(** [with open(p, "wb") as f: f.write(data)] *)
Definition write_file (fs : files) (p : string) (data : list byte) : files :=
  <[p := data]> fs.

(** [heck1/convert_to_tflit.py]: the outcome and the file system afterwards
    (what is printed is left out). *)
Definition convert_to_tflit `{TensorFlow} (fs : files) : result unit * files :=
  if negb (path_exists fs MODEL_PATH) then
    (Raise (FileNotFoundError (cross_mark ++ " Model file not found: " ++ MODEL_PATH)), fs)
  else
    match keras_load_model fs MODEL_PATH with
    | Raise e => (Raise e, fs)
    | Ok model =>
        match tflite_convert model with
        | Raise e => (Raise e, fs)
        | Ok tflite_model => (Ok tt, write_file fs OUTPUT_PATH tflite_model)
        end
    end.

(** [civic-kural-deploy/backend/convert_to_tflite.py]: the same script
    without the check of the path. *)
Definition convert_to_tflite `{TensorFlow} (fs : files) : result unit * files :=
  match keras_load_model fs "civic_issue_severity_model.h5" with
  | Raise e => (Raise e, fs)
  | Ok model =>
      match tflite_convert model with
      | Raise e => (Raise e, fs)
      | Ok tflite_model =>
          (Ok tt, write_file fs "civic_issue_severity_model_fp16.tflite" tflite_model)
      end
  end.

(** ** Risk labels ([train.py], lines 7-18) *)

(** A tensor of rank 1: integer labels or [float32] values. *)
Inductive Tensor : Type :=
| IntTensor (v : list Z)
| FloatTensor (v : vector).

(** [labels == k], elementwise. *)
Definition tensor_equal (labels : list Z) (k : Z) : list bool :=
  map (fun l => Z.eqb l k) labels.

(** [tf.where(cond, x, y)] with two scalars, and with a scalar and a tensor
    of the shape of [cond]. *)
Definition where_scalars (cond : list bool) (x y : Float.t) : vector :=
  map (fun c : bool => if c then x else y) cond.
Definition where_scalar_tensor (cond : list bool) (x : Float.t) (y : vector) : vector :=
  zip_with (fun (c : bool) v => if c then x else v) cond y.

Definition add_risk_label {Images : Type} (images : Images) (labels : list Z)
    : Images * gmap string Tensor :=
  let risk :=
    where_scalar_tensor (tensor_equal labels 0) (Float.float32_of_Z 20)
      (where_scalars (tensor_equal labels 1) (Float.float32_of_Z 55) (Float.float32_of_Z 90)) in
  (images, <["severity" := IntTensor labels]> (<["risk" := FloatTensor risk]> ∅)).

(** The risk of one label, as the docstring of [add_risk_label] tabulates
    it. *)
Definition risk_of (label : Z) : Float.t :=
  if label =? 0 then Float.float32_of_Z 20
  else if label =? 1 then Float.float32_of_Z 55
  else Float.float32_of_Z 90.

(** *** Normalization of one intensity *)

(** The [float32] that [img_array / 255.0] makes of one [uint8]
    intensity. *)
Definition normalised (b : byte) : Float.t :=
  Float.div32 (float32_of_uint8 b) (Float.float32_of_Z 255).

(** The 256 intensities in increasing order. *)
Definition all_bytes : list byte :=
  map (fun n => default x00 (Byte.of_N (N.of_nat n))) (seq 0 256).

(** Every element is strictly below all later ones. *)
Fixpoint increasing (l : vector) : bool :=
  match l with
  | [] => true
  | x :: l' => forallb (Float.ltb x) l' && increasing l'
  end.

(** *** Further stand-ins *)

(** A stand-in for Pillow that decodes only buffers opening with the first
    byte of the PNG signature. *)
Definition signature_only : Pillow := {|
  Image_open := fun bs =>
    match bs with
    | x89 :: _ => Ok {| mode := "RGB"; size := (1%nat, 1%nat); getpixel := fun _ _ _ => x00 |}
    | _ => Raise (OtherError "cannot identify image file")
    end;
  convert_pixels := fun image _ x y c => getpixel image x y c;
  resize_pixels := fun image _ _ _ _ c => getpixel image 0%nat 0%nat c
|}.

(** What [preprocess_image] makes of the one byte [x80] under [one_pixel]. *)
Definition grey_tensor : array4 :=
  expand_dims (divide_255 (np_array
    (@resize one_pixel
       (@convert one_pixel
          {| mode := "L"; size := (1, 1)%nat; getpixel := fun _ _ _ => x80 |} "RGB")
       MODEL_INPUT_SIZE LANCZOS))).

(** A model whose every prediction fails. *)
Definition failing_model (e : Exception) : Model := {| predict := fun _ => Raise e |}.

(** A stand-in for TensorFlow: every non-empty model file loads to the
    constant model of the decoding example, an empty or missing one does not
    load, and every model converts to the same four bytes. *)
Definition one_byte_keras : TensorFlow := {|
  keras_load_model := fun fs p =>
    match fs !! p with
    | Some (b :: _) =>
        Ok (constant_model
              (PredSeq [[example_issue_probs]; [example_severity_probs]]))
    | Some [] => Raise (OtherError "Unable to open file (file signature not found)")
    | None => Raise (OtherError "No file or directory found")
    end;
  inspect := fun _ => Ok tt;
  tflite_convert := fun _ => Ok [x54; x46; x4c; x33]
|}.

(** * Properties *)

Local Open Scope list_scope.

(** ** The order of floating-point data *)
Module FloatOrder.
Import Float.

Lemma lex_refl e m : lex e m e m = Eq.
Proof. unfold lex. by rewrite Z.compare_refl, Pos.compare_refl. Qed.

Lemma lex_Lt e1 m1 e2 m2 :
  lex e1 m1 e2 m2 = Lt <-> e1 < e2 \/ (e1 = e2 /\ (m1 < m2)%positive).
Proof.
  unfold lex. destruct (Z.compare_spec e1 e2); rewrite ?Pos.compare_lt_iff;
    split; intros; try done; lia.
Qed.

Lemma lex_Gt e1 m1 e2 m2 :
  lex e1 m1 e2 m2 = Gt <-> e2 < e1 \/ (e1 = e2 /\ (m2 < m1)%positive).
Proof.
  unfold lex. destruct (Z.compare_spec e1 e2); rewrite ?Pos.compare_gt_iff; split; intros; try done; lia.
Qed.

Lemma lex_Eq e1 m1 e2 m2 :
  lex e1 m1 e2 m2 = Eq <-> e1 = e2 /\ m1 = m2.
Proof.
  unfold lex. destruct (Z.compare_spec e1 e2); rewrite ?Pos.compare_eq_iff; split; intros; try done; lia.
Qed.

Ltac lex_norm :=
  repeat match goal with
         | H : lex _ _ _ _ = Lt |- _ => apply lex_Lt in H
         | H : lex _ _ _ _ = Gt |- _ => apply lex_Gt in H
         | H : lex _ _ _ _ = Eq |- _ => apply lex_Eq in H
         end.

Lemma compare_finite s1 m1 e1 s2 m2 e2 :
  SFcompare (S754_finite s1 m1 e1) (S754_finite s2 m2 e2) =
  Some match s1, s2 with
       | true, false => Lt
       | false, true => Gt
       | false, false => lex e1 m1 e2 m2
       | true, true => CompOpp (lex e1 m1 e2 m2)
       end.
Proof. unfold lex. destruct s1, s2; simpl; try done; by destruct (e1 ?= e2). Qed.

Lemma leb_refl x : is_nan x = false -> leb x x = true.
Proof.
  unfold leb, SFleb. destruct x as [[]|[]| |s m e]; try done.
  intros _. rewrite compare_finite, lex_refl. by destruct s.
Qed.

(** On data that are not NaN the order is total. *)
Lemma leb_false_ltb x y :
  is_nan x = false -> is_nan y = false -> leb x y = false -> ltb y x = true.
Proof.
  unfold leb, ltb, SFleb, SFltb.
  destruct x as [[]|[]| |s1 m1 e1], y as [[]|[]| |s2 m2 e2];
    try done; try (by destruct s1); try (by destruct s2).
  intros _ _. rewrite !compare_finite.
  destruct s1, s2; try done;
    destruct (lex e1 m1 e2 m2) eqn:E1, (lex e2 m2 e1 m1) eqn:E2; simpl; try done;
    lex_norm; lia.
Qed.

Lemma ltb_leb x y : ltb x y = true -> leb x y = true.
Proof. unfold leb, ltb, SFleb, SFltb. by destruct (SFcompare x y) as [[]|]. Qed.

Lemma leb_ltb_trans x y z : leb x y = true -> ltb y z = true -> ltb x z = true.
Proof.
  unfold leb, ltb, SFleb, SFltb.
  destruct x as [[]|[]| |s1 m1 e1], y as [[]|[]| |s2 m2 e2], z as [[]|[]| |s3 m3 e3];
    try done; rewrite ?compare_finite; try (by destruct s1); try (by destruct s2);
    try (by destruct s3); try (by destruct s1, s2); try (by destruct s2, s3); try (by destruct s1, s3).
  destruct s1, s2, s3; try done.
  all: destruct (lex e1 m1 e2 m2) eqn:E1, (lex e2 m2 e3 m3) eqn:E2,
         (lex e1 m1 e3 m3) eqn:E3; simpl; try done;
       lex_norm; lia.
Qed.

Lemma ltb_irrefl x : ltb x x = false.
Proof.
  unfold ltb, SFltb. destruct x as [[]|[]| |s m e]; try done.
  rewrite compare_finite, lex_refl. by destruct s.
Qed.
End FloatOrder.

(** ** [np.argmax] *)
Section Argmax.
Import Float FloatOrder.
Local Open Scope nat_scope.

Lemma argmax_loop_bound ip : forall i mp max_ind,
  max_ind < i -> argmax_loop ip i mp max_ind < i + length ip.
Proof.
  induction ip as [|x ip IH]; intros i mp max_ind Hlt; simpl; [lia|].
  destruct (negb (leb x mp)).
  - destruct (is_nan x); [lia|]. specialize (IH (S i) x i). lia.
  - specialize (IH (S i) mp max_ind). lia.
Qed.

Lemma argmax_bound (a : vector) i : argmax a = Ok i -> i < length a.
Proof.
  destruct a as [|x ip]; simpl; [done|]. intros [= <-].
  destruct (is_nan x); [lia|].
  pose proof (argmax_loop_bound ip 1 x 0). lia.
Qed.

Lemma argmax_nonempty (a : vector) : a <> [] -> exists i, argmax a = Ok i.
Proof. destruct a; [done|]. intros _. by eexists. Qed.

Lemma argmax_Raise (a : vector) e :
  argmax a = Raise e -> e = ValueError "attempt to get argmax of an empty sequence".
Proof. destruct a; simpl; congruence. Qed.

Lemma argmax_loop_scanned ip : forall pre mp max_ind,
  no_nan ip -> is_nan mp = false -> scanned pre mp max_ind ->
  exists m, scanned (pre ++ ip) m (argmax_loop ip (length pre) mp max_ind).
Proof.
  induction ip as [|x ip IH]; intros pre mp max_ind Hnan Hmp [Hat Hmax Hfirst]; simpl.
  { exists mp. rewrite app_nil_r. by split. }
  apply Forall_cons in Hnan as [Hx Hnan].
  assert (Hlt : max_ind < length pre) by (by eapply lookup_lt_Some).
  replace (pre ++ x :: ip) with ((pre ++ [x]) ++ ip) by (by rewrite <- app_assoc).
  replace (S (length pre)) with (length (pre ++ [x])) by (rewrite length_app; simpl; lia).
  destruct (leb x mp) eqn:Hle; simpl.
  - apply IH; [done..|]. split.
    + by rewrite lookup_app_l.
    + intros j y Hj. apply lookup_app_Some in Hj as [Hj|[_ Hj]]; [by eapply Hmax|].
      apply list_lookup_singleton_Some in Hj as [_ <-]. done.
    + intros j y Hjl Hj. rewrite lookup_app_l in Hj by lia. by eapply Hfirst.
  - rewrite Hx. apply leb_false_ltb in Hle; [|done..].
    apply IH; [done..|]. split.
    + rewrite lookup_app_r by lia. by rewrite Nat.sub_diag.
    + intros j y Hj. apply lookup_app_Some in Hj as [Hj|[_ Hj]].
      * apply ltb_leb. eapply leb_ltb_trans; [by eapply Hmax|done].
      * apply list_lookup_singleton_Some in Hj as [_ <-]. by apply leb_refl.
    + intros j y Hjl Hj. rewrite lookup_app_l in Hj by lia.
      eapply leb_ltb_trans; [by eapply Hmax|done].
Qed.
End Argmax.

(** ** The prediction decoder *)

(** Whatever the model returns, [predict_issue_and_severity] logs one call
    and decodes the predictions, re-raising every failure as a
    [RuntimeError]. *)
Lemma predict_issue_and_severity_loaded (m : Model) (image_array : array4) (t : list event) :
  predict_issue_and_severity (Some m) image_array t =
  (try_wrap (predict m image_array ≫= decode_predictions)
     (fun e => RuntimeError ("Model inference failed: " ++ str e)%string),
   t ++ [ModelPredict image_array]).
Proof.
  unfold predict_issue_and_severity, try_except, model_predict, mbind, Py_bind, lift.
  destruct (predict m image_array) as [p|e]; simpl; [|done].
  by destruct (decode_predictions p).
Qed.

(** With no model loaded nothing is called. *)
Lemma predict_issue_and_severity_unloaded (image_array : array4) (t : list event) :
  predict_issue_and_severity None image_array t =
  (Raise (RuntimeError "Model not loaded. Please restart the service."), t).
Proof. done. Qed.


(** The arg-max of a non-empty vector without NaN is the first index that
    holds the maximum. *)
Lemma argmax_first_maximum (probs : vector) :
  probs <> [] -> no_nan probs ->
  exists i m, argmax probs = Ok i /\ scanned probs m i.
Proof.
  destruct probs as [|x ip]; [done|]. intros _ Hnan.
  apply Forall_cons in Hnan as [Hx Hnan]. simpl. rewrite Hx.
  destruct (argmax_loop_scanned ip [x] x 0%nat) as [m Hm]; [done..| |by eauto].
  split.
  - done.
  - intros [|j] y; simpl; [|done]. intros [= <-]. by apply FloatOrder.leb_refl.
  - lia.
Qed.

(** C5. The arg-max of a probability vector is the lowest index of its
    maximum: no element exceeds the selected one and every element before it
    is strictly smaller, so among equal maximal values the first is chosen;
    in particular [0.5, 0.5, 0, 0] selects index 0. *)
Theorem argmax_ties_lowest_index :
  (forall probs : vector, probs <> [] -> no_nan probs ->
   exists i m,
     argmax probs = Ok i /\ probs !! i = Some m /\
     (forall j x, probs !! j = Some x -> Float.leb x m = true) /\
     (forall j x, (j < i)%nat -> probs !! j = Some x -> Float.ltb x m = true)) /\
  argmax tie_probs = Ok 0%nat.
Proof.
  split; [|reflexivity].
  intros probs Hne Hnan.
  destruct (argmax_first_maximum probs Hne Hnan) as (i & m & Harg & [Hat Hmax Hfirst]).
  by exists i, m.
Qed.

Lemma argmax_ties_lowest_index_witness :
  exists i m,
    argmax tie_probs = Ok i /\ tie_probs !! i = Some m /\
    (forall j x, tie_probs !! j = Some x -> Float.leb x m = true) /\
    (forall j x, (j < i)%nat -> tie_probs !! j = Some x -> Float.ltb x m = true).
Proof.
  apply (proj1 argmax_ties_lowest_index tie_probs).
  - discriminate.
  - repeat constructor.
Defined.

(** The arg-max index of a vector no longer than the class list has a
    label. *)
Lemma label_in_range_short (classes : list string) (probs : vector) :
  probs <> [] -> (length probs <= length classes)%nat -> label_in_range classes probs.
Proof.
  intros Hne Hlen. destruct (argmax_nonempty probs Hne) as [i Hi].
  exists i. split; [done|]. apply argmax_bound in Hi. lia.
Qed.

(** When both arg-max indices have a label the decoder returns the two
    labels and the two selected probabilities. *)
Lemma decode_outputs_in_range (issue_probs severity_probs : vector) i j :
  argmax issue_probs = Ok i -> argmax severity_probs = Ok j ->
  (i < length ISSUE_CLASSES)%nat -> (j < length SEVERITY_CLASSES)%nat ->
  exists it sv p q,
    ISSUE_CLASSES !! i = Some it /\ SEVERITY_CLASSES !! j = Some sv /\
    issue_probs !! i = Some p /\ severity_probs !! j = Some q /\
    decode_outputs issue_probs severity_probs = Ok (prediction_dict it sv p q).
Proof.
  intros Hi Hj Hil Hjl.
  destruct (lookup_lt_is_Some_2 ISSUE_CLASSES i Hil) as [it Hit].
  destruct (lookup_lt_is_Some_2 SEVERITY_CLASSES j Hjl) as [sv Hsv].
  destruct (lookup_lt_is_Some_2 issue_probs i (argmax_bound _ _ Hi)) as [p Hp].
  destruct (lookup_lt_is_Some_2 severity_probs j (argmax_bound _ _ Hj)) as [q Hq].
  exists it, sv, p, q. repeat split; try done.
  unfold decode_outputs, getitem, array_getitem. rewrite Hi, Hj. simpl.
  rewrite Hit, Hsv. simpl. rewrite Hp, Hq. reflexivity.
Qed.

(** Conversely, a result of the decoder is built from labels at the two
    arg-max indices. *)
Lemma decode_outputs_Ok (issue_probs severity_probs : vector) d :
  decode_outputs issue_probs severity_probs = Ok d ->
  exists i j it sv p q,
    argmax issue_probs = Ok i /\ argmax severity_probs = Ok j /\
    ISSUE_CLASSES !! i = Some it /\ SEVERITY_CLASSES !! j = Some sv /\
    issue_probs !! i = Some p /\ severity_probs !! j = Some q /\
    d = prediction_dict it sv p q.
Proof.
  unfold decode_outputs, getitem, array_getitem.
  destruct (argmax issue_probs) as [i|] eqn:Hi; [|done].
  destruct (argmax severity_probs) as [j|] eqn:Hj; [|done]. simpl.
  destruct (ISSUE_CLASSES !! i) as [it|] eqn:Hit; [|done].
  destruct (SEVERITY_CLASSES !! j) as [sv|] eqn:Hsv; [|done]. simpl.
  destruct (issue_probs !! i) as [p|] eqn:Hp; [|done].
  destruct (severity_probs !! j) as [q|] eqn:Hq; [|done]. simpl.
  intros [= <-]. by exists i, j, it, sv, p, q.
Qed.

(** The decoder fails only with the [ValueError] of an empty vector or the
    [IndexError] of a label lookup. *)
Lemma decode_outputs_Raise (issue_probs severity_probs : vector) e :
  decode_outputs issue_probs severity_probs = Raise e ->
  e = ValueError "attempt to get argmax of an empty sequence" \/
  e = IndexError "list index out of range".
Proof.
  unfold decode_outputs, getitem, array_getitem.
  destruct (argmax issue_probs) as [i|e1] eqn:Hi; simpl;
    [|apply argmax_Raise in Hi as ->; intros [= <-]; by left].
  destruct (argmax severity_probs) as [j|e2] eqn:Hj; simpl;
    [|apply argmax_Raise in Hj as ->; intros [= <-]; by left].
  destruct (ISSUE_CLASSES !! i); simpl; [|intros [= <-]; by right].
  destruct (SEVERITY_CLASSES !! j); simpl; [|intros [= <-]; by right].
  destruct (lookup_lt_is_Some_2 issue_probs i (argmax_bound _ _ Hi)) as [p ->].
  destruct (lookup_lt_is_Some_2 severity_probs j (argmax_bound _ _ Hj)) as [q ->].
  done.
Qed.

(** The dictionary keyed by the two output names holds the same two heads
    as the positional pair. *)
Lemma extract_outputs_keyed (issue_output severity_output : batch) :
  extract_outputs
    (PredDict (<["issue_output" := issue_output]>
               (<["severity_output" := severity_output]> ∅))) =
  extract_outputs (PredSeq [issue_output; severity_output]).
Proof.
  unfold extract_outputs, dict_getitem.
  rewrite lookup_insert_eq, lookup_insert_ne, lookup_insert_eq by done.
  reflexivity.
Qed.

(** C6. The decoder takes the model's answer in both shapes, a dictionary
    keyed by ["issue_output"] and ["severity_output"] and a positional pair
    (issue head first), and treats them alike: from either it decodes the
    first row of the issue head and the first row of the severity head, so
    the two shapes of the same data give the same result.  For an issue
    vector of length 4 and a severity vector of length 3 that result exists:
    it is the dictionary of the labels and the probabilities at the two
    arg-max indices.  The prediction routine, run on a model that returns
    the one shape and on a model that returns the other, logs the same call
    and ends alike; and the two shapes of any two outputs, empty batches
    included, decode to the same result or fail alike. *)
Theorem keyed_and_positional_agree (issue_probs severity_probs : vector)
    (issue_rest severity_rest : batch) :
  decode_predictions
    (PredDict (<["issue_output" := issue_probs :: issue_rest]>
               (<["severity_output" := severity_probs :: severity_rest]> ∅))) =
    decode_outputs issue_probs severity_probs /\
  decode_predictions
    (PredSeq [issue_probs :: issue_rest; severity_probs :: severity_rest]) =
    decode_outputs issue_probs severity_probs /\
  (length issue_probs = 4%nat -> length severity_probs = 3%nat ->
   exists i j it sv p q,
     argmax issue_probs = Ok i /\ argmax severity_probs = Ok j /\
     ISSUE_CLASSES !! i = Some it /\ SEVERITY_CLASSES !! j = Some sv /\
     issue_probs !! i = Some p /\ severity_probs !! j = Some q /\
     decode_predictions
       (PredDict (<["issue_output" := issue_probs :: issue_rest]>
                  (<["severity_output" := severity_probs :: severity_rest]> ∅))) =
       Ok (prediction_dict it sv p q) /\
     decode_predictions
       (PredSeq [issue_probs :: issue_rest; severity_probs :: severity_rest]) =
       Ok (prediction_dict it sv p q)) /\
  (forall (image_array : array4) (t : list event),
     predict_issue_and_severity
       (Some (constant_model
                (PredDict (<["issue_output" := issue_probs :: issue_rest]>
                           (<["severity_output" := severity_probs :: severity_rest]> ∅)))))
       image_array t =
     (try_wrap (decode_outputs issue_probs severity_probs)
        (fun e => RuntimeError ("Model inference failed: " ++ str e)%string),
      t ++ [ModelPredict image_array]) /\
     predict_issue_and_severity
       (Some (constant_model
                (PredSeq [issue_probs :: issue_rest; severity_probs :: severity_rest])))
       image_array t =
     (try_wrap (decode_outputs issue_probs severity_probs)
        (fun e => RuntimeError ("Model inference failed: " ++ str e)%string),
      t ++ [ModelPredict image_array])) /\
  (forall issue_output severity_output : batch,
     decode_predictions
       (PredDict (<["issue_output" := issue_output]>
                  (<["severity_output" := severity_output]> ∅))) =
     decode_predictions (PredSeq [issue_output; severity_output])).
Proof.
  assert (Hkeyed :
    decode_predictions
      (PredDict (<["issue_output" := issue_probs :: issue_rest]>
                 (<["severity_output" := severity_probs :: severity_rest]> ∅))) =
    decode_outputs issue_probs severity_probs).
  { unfold decode_predictions. rewrite extract_outputs_keyed. reflexivity. }
  assert (Hpositional :
    decode_predictions
      (PredSeq [issue_probs :: issue_rest; severity_probs :: severity_rest]) =
    decode_outputs issue_probs severity_probs) by reflexivity.
  split; [exact Hkeyed|]. split; [exact Hpositional|]. split; [|split].
  - intros Hi Hs. rewrite Hkeyed, Hpositional.
    destruct (argmax_nonempty issue_probs) as [i Hai]; [by destruct issue_probs|].
    destruct (argmax_nonempty severity_probs) as [j Haj]; [by destruct severity_probs|].
    pose proof (argmax_bound _ _ Hai). pose proof (argmax_bound _ _ Haj).
    destruct (decode_outputs_in_range issue_probs severity_probs i j)
      as (it & sv & p & q & Hit & Hsv & Hp & Hq & Hd); [done|done|simpl; lia|simpl; lia|].
    by exists i, j, it, sv, p, q.
  - intros image_array t. rewrite !predict_issue_and_severity_loaded. simpl.
    by rewrite Hkeyed, Hpositional.
  - intros issue_output severity_output. unfold decode_predictions.
    by rewrite extract_outputs_keyed.
Qed.

Lemma keyed_and_positional_agree_witness :
  exists d,
    decode_predictions
      (PredDict (<["issue_output" := [example_issue_probs]]>
                 (<["severity_output" := [example_severity_probs]]> ∅))) = Ok d /\
    decode_predictions (PredSeq [[example_issue_probs]; [example_severity_probs]]) = Ok d.
Proof.
  destruct (proj1 (proj2 (proj2 (keyed_and_positional_agree
                                   example_issue_probs example_severity_probs [] [])))
              eq_refl eq_refl)
    as (i & j & it & sv & p & q & _ & _ & _ & _ & _ & _ & Hkeyed & Hpositional).
  by exists (prediction_dict it sv p q).
Defined.

(** C7. The confidence of the result is the probability at the arg-max index
    of the issue vector, whatever the severity vector is. *)
Theorem confidence_from_issue_head (issue_probs severity_probs severity_probs' : vector) :
  length issue_probs = 4%nat ->
  length severity_probs = 3%nat -> length severity_probs' = 3%nat ->
  exists i p d d',
    argmax issue_probs = Ok i /\ issue_probs !! i = Some p /\
    decode_outputs issue_probs severity_probs = Ok d /\
    d !! "confidence" = Some (VFloat p) /\
    decode_outputs issue_probs severity_probs' = Ok d' /\
    d' !! "confidence" = Some (VFloat p).
Proof.
  intros Hi Hs Hs'.
  destruct (argmax_nonempty issue_probs) as [i Hai]; [by destruct issue_probs|].
  destruct (argmax_nonempty severity_probs) as [j Haj]; [by destruct severity_probs|].
  destruct (argmax_nonempty severity_probs') as [j' Haj']; [by destruct severity_probs'|].
  pose proof (argmax_bound _ _ Hai). pose proof (argmax_bound _ _ Haj).
  pose proof (argmax_bound _ _ Haj').
  destruct (decode_outputs_in_range issue_probs severity_probs i j)
    as (it & sv & p & q & _ & _ & Hp & _ & Hd); [done|done|simpl; lia|simpl; lia|].
  destruct (decode_outputs_in_range issue_probs severity_probs' i j')
    as (it' & sv' & p' & q' & _ & _ & Hp' & _ & Hd'); [done|done|simpl; lia|simpl; lia|].
  assert (p' = p) as -> by congruence.
  exists i, p, (prediction_dict it sv p q), (prediction_dict it' sv' p q').
  by repeat split.
Qed.

Lemma confidence_from_issue_head_witness :
  exists i p d d',
    argmax example_issue_probs = Ok i /\ example_issue_probs !! i = Some p /\
    decode_outputs example_issue_probs example_severity_probs = Ok d /\
    d !! "confidence" = Some (VFloat p) /\
    decode_outputs example_issue_probs other_severity_probs = Ok d' /\
    d' !! "confidence" = Some (VFloat p).
Proof.
  apply (confidence_from_issue_head example_issue_probs example_severity_probs
           other_severity_probs); reflexivity.
Defined.

(** C3, as the specification states it, fails: a severity vector of length
    2 is decoded to a label instead of being refused. *)
Lemma short_severity_vector_is_decoded :
  length short_severity_probs <> length SEVERITY_CLASSES /\
  decode_outputs example_issue_probs short_severity_probs =
    Ok (prediction_dict "garbage" "medium" (Float.lit 0.7) (Float.lit 0.6)).
Proof. split; [discriminate|]. reflexivity. Qed.

(** C3, amended.  The decoder checks no length.  It returns labels exactly
    when each vector's arg-max index exists and lies below the number of
    classes of its head, which every non-empty vector no longer than the
    class list satisfies; the labels are those at the arg-max indices.
    Otherwise it fails, with the [ValueError] of an empty vector or the
    [IndexError] of an index beyond the class list, which
    [predict_issue_and_severity] re-raises as a [RuntimeError]. *)
Theorem decoder_fails_iff_label_out_of_range (issue_probs severity_probs : vector) :
  ((exists d, decode_outputs issue_probs severity_probs = Ok d) <->
   label_in_range ISSUE_CLASSES issue_probs /\
   label_in_range SEVERITY_CLASSES severity_probs) /\
  (issue_probs <> [] -> (length issue_probs <= 4)%nat ->
   label_in_range ISSUE_CLASSES issue_probs) /\
  (severity_probs <> [] -> (length severity_probs <= 3)%nat ->
   label_in_range SEVERITY_CLASSES severity_probs) /\
  (forall d, decode_outputs issue_probs severity_probs = Ok d ->
   exists i j it sv,
     argmax issue_probs = Ok i /\ argmax severity_probs = Ok j /\
     ISSUE_CLASSES !! i = Some it /\ SEVERITY_CLASSES !! j = Some sv /\
     d !! "issue_type" = Some (VStr it) /\ d !! "severity" = Some (VStr sv)) /\
  (forall e, decode_outputs issue_probs severity_probs = Raise e ->
   (e = ValueError "attempt to get argmax of an empty sequence" \/
    e = IndexError "list index out of range") /\
   forall (image_array : array4) (t : list event),
     predict_issue_and_severity
       (Some (constant_model (PredSeq [[issue_probs]; [severity_probs]]))) image_array t =
     (Raise (RuntimeError ("Model inference failed: " ++ str e)%string),
      t ++ [ModelPredict image_array])).
Proof.
  split; [|split; [|split; [|split]]].
  - split.
    + intros [d Hd].
      apply decode_outputs_Ok in Hd as (i & j & it & sv & p & q & Hi & Hj & Hit & Hsv & _).
      split; [exists i|exists j]; (split; [done|]); by eapply lookup_lt_Some.
    + intros [(i & Hi & Hil) (j & Hj & Hjl)].
      destruct (decode_outputs_in_range issue_probs severity_probs i j)
        as (it & sv & p & q & _ & _ & _ & _ & Hd); [done..|].
      by eexists.
  - apply (label_in_range_short ISSUE_CLASSES).
  - apply (label_in_range_short SEVERITY_CLASSES).
  - intros d Hd.
    apply decode_outputs_Ok in Hd as (i & j & it & sv & p & q & Hi & Hj & Hit & Hsv & _ & _ & ->).
    by exists i, j, it, sv.
  - intros e He. split; [by eapply decode_outputs_Raise|].
    intros image_array t. rewrite predict_issue_and_severity_loaded. simpl.
    unfold decode_predictions. simpl. by rewrite He.
Qed.

Lemma decoder_fails_iff_label_out_of_range_witness :
  label_in_range SEVERITY_CLASSES short_severity_probs /\
  (exists d, decode_outputs example_issue_probs short_severity_probs = Ok d) /\
  ~ label_in_range SEVERITY_CLASSES long_severity_probs /\
  decode_outputs example_issue_probs long_severity_probs =
    Raise (IndexError "list index out of range").
Proof.
  pose proof (decoder_fails_iff_label_out_of_range example_issue_probs short_severity_probs)
    as (Hiff & Hissue & Hsev & _).
  pose proof (decoder_fails_iff_label_out_of_range example_issue_probs long_severity_probs)
    as (Hiff' & _).
  assert (Hs : label_in_range SEVERITY_CLASSES short_severity_probs).
  { apply Hsev; [discriminate|simpl; lia]. }
  split; [exact Hs|]. split.
  - apply Hiff. split; [|exact Hs].
    apply Hissue; [discriminate|simpl; lia].
  - split; [|reflexivity].
    intros Hl. assert (Hd : exists d, decode_outputs example_issue_probs long_severity_probs = Ok d).
    { apply Hiff'. split; [|exact Hl]. apply Hissue; [discriminate|simpl; lia]. }
    destruct Hd as [d Hd]. discriminate Hd.
Defined.

(** ** Image preprocessing *)

Lemma length_tabulate {A} (n : nat) (f : nat -> A) : length (tabulate n f) = n.
Proof. unfold tabulate. by rewrite length_map, length_seq. Qed.

Lemma Forall_tabulate {A} (P : A -> Prop) (n : nat) (f : nat -> A) :
  (forall i, P (f i)) -> Forall P (tabulate n f).
Proof. intros HP. unfold tabulate. apply Forall_map, Forall_forall. intros i _. apply HP. Qed.

(** [np.array] of an image has one row per line, one entry per column and
    one element per band. *)
Lemma np_array_shape (image : Image) :
  has_shape3 (snd (size image)) (fst (size image)) (bands (mode image)) (np_array image).
Proof.
  unfold has_shape3, np_array. destruct (size image) as [width height]. simpl.
  split; [apply length_tabulate|].
  apply Forall_tabulate. intros y. split; [apply length_tabulate|].
  apply Forall_tabulate. intros x. apply length_tabulate.
Qed.

Lemma divide_255_shape (h w c : nat) (a : array3) :
  has_shape3 h w c a -> has_shape3 h w c (divide_255 a).
Proof.
  unfold has_shape3, divide_255. intros [Hh Hrows]. split; [by rewrite length_map|].
  apply Forall_map. eapply Forall_impl; [exact Hrows|]. simpl.
  intros row [Hw Hpx]. split; [by rewrite length_map|].
  apply Forall_map. eapply Forall_impl; [exact Hpx|]. simpl.
  intros px Hc. by rewrite length_map.
Qed.

(** Every [uint8] intensity divided by 255 in [float32] lies in
    [[0.0, 1.0]]. *)
Lemma uint8_divided_in_unit_interval (b : byte) :
  in_unit_interval (Float.div32 (float32_of_uint8 b) (Float.float32_of_Z 255)) = true.
Proof. destruct b; vm_compute; reflexivity. Qed.

Lemma divide_255_np_array_range (image : Image) :
  Forall (Forall (Forall (fun x => in_unit_interval x = true))) (divide_255 (np_array image)).
Proof.
  unfold divide_255, np_array. destruct (size image) as [width height].
  apply Forall_map, Forall_tabulate. intros y.
  apply Forall_map, Forall_tabulate. intros x.
  apply Forall_map, Forall_tabulate. intros c.
  apply uint8_divided_in_unit_interval.
Qed.

Lemma lookup_tabulate {A} (n : nat) (f : nat -> A) (i : nat) :
  (i < n)%nat -> tabulate n f !! i = Some (f i).
Proof. intros Hi. unfold tabulate. by rewrite list_lookup_fmap, lookup_seq_lt. Qed.

Lemma bands_RGB : bands "RGB" = 3%nat.
Proof. vm_compute. reflexivity. Qed.

Lemma rgb_before_resize `{Pillow} (image : Image) :
  mode (if negb (mode image =? "RGB")%string then convert image "RGB" else image) = "RGB" /\
  size (resize (if negb (mode image =? "RGB")%string then convert image "RGB" else image)
          (224, 224)%nat LANCZOS) = (224, 224)%nat.
Proof.
  split; [|done]. destruct (mode image =? "RGB")%string eqn:E; simpl; [|done].
  by apply String.eqb_eq.
Qed.

(** The array that [np.array] and the division make of an RGB image of
    224 x 224 pixels, element by element. *)
Lemma divide_255_np_array_lookup (image : Image) (y x c : nat) :
  mode image = "RGB" -> size image = (224, 224)%nat ->
  (y < 224)%nat -> (x < 224)%nat -> (c < 3)%nat ->
  exists row px,
    divide_255 (np_array image) !! y = Some row /\ row !! x = Some px /\
    px !! c = Some (normalised (getpixel image x y c)).
Proof.
  intros Hmode Hsize Hy Hx Hc.
  assert (Harr : np_array image =
                 tabulate 224 (fun y => tabulate 224 (fun x => tabulate 3 (fun c =>
                   float32_of_uint8 (getpixel image x y c))))).
  { unfold np_array. by rewrite Hsize, Hmode, bands_RGB. }
  exists (map (map (fun v => Float.div32 v (Float.float32_of_Z 255)))
            (tabulate 224 (fun x => tabulate 3 (fun c =>
               float32_of_uint8 (getpixel image x y c))))),
    (map (fun v => Float.div32 v (Float.float32_of_Z 255))
       (tabulate 3 (fun c => float32_of_uint8 (getpixel image x y c)))).
  unfold divide_255. rewrite Harr.
  split; [by rewrite list_lookup_fmap, lookup_tabulate|].
  split; [by rewrite list_lookup_fmap, lookup_tabulate|].
  by rewrite list_lookup_fmap, lookup_tabulate.
Qed.

(** C8. For every byte buffer that decodes to an image, [preprocess_image]
    returns a tensor of shape [1, 224, 224, 3] whose elements all lie in
    [[0.0, 1.0]].  The tensor is obtained as follows: the image is kept if
    its mode is RGB and otherwise replaced by Pillow's conversion of it to
    RGB; that RGB image is resampled to 224 x 224 with the Lanczos filter;
    and element [[0, y, x, c]] of the tensor is the intensity that the
    resampled image holds at column [x], row [y] and band [c], divided by
    255 in [float32]. *)
Theorem preprocess_image_shape_and_range `{Pillow} (image_bytes : list byte) (image : Image) :
  Image_open image_bytes = Ok image ->
  exists rgb tensor,
    (mode image = "RGB" -> rgb = image) /\
    (mode image <> "RGB" ->
     rgb = {| mode := "RGB"; size := size image; getpixel := convert_pixels image "RGB" |}) /\
    mode rgb = "RGB" /\
    preprocess_image image_bytes = Ok tensor /\
    has_shape4 1 224 224 3 tensor /\
    all_elements (fun x => in_unit_interval x = true) tensor /\
    forall y x c : nat, (y < 224)%nat -> (x < 224)%nat -> (c < 3)%nat ->
      exists a3 row px,
        tensor !! 0%nat = Some a3 /\ a3 !! y = Some row /\ row !! x = Some px /\
        px !! c = Some (normalised (resize_pixels rgb (224, 224)%nat LANCZOS x y c)).
Proof.
  intros Hopen.
  destruct (rgb_before_resize image) as [Hmode _].
  assert (Hrgb : mode image = "RGB" <-> (mode image =? "RGB")%string = true)
    by (symmetry; apply String.eqb_eq).
  set (rgb := if negb (mode image =? "RGB")%string then convert image "RGB" else image) in *.
  exists rgb, (expand_dims (divide_255 (np_array (resize rgb (224, 224)%nat LANCZOS)))).
  split; [|split; [|split; [done|split; [|split; [|split]]]]].
  - intros Heq. apply Hrgb in Heq. unfold rgb. by rewrite Heq.
  - intros Hne. unfold rgb.
    destruct (mode image =? "RGB")%string eqn:E; [by destruct Hne; apply Hrgb|done].
  - unfold preprocess_image. rewrite Hopen. reflexivity.
  - split; [done|]. apply Forall_singleton.
    pose proof (np_array_shape (resize rgb (224, 224)%nat LANCZOS)) as Hs.
    simpl in Hs. rewrite Hmode in Hs. by apply divide_255_shape.
  - apply Forall_singleton, divide_255_np_array_range.
  - intros y x c Hy Hx Hc.
    destruct (divide_255_np_array_lookup (resize rgb (224, 224)%nat LANCZOS) y x c)
      as (row & px & Hrow & Hpx & Hel); [done..|].
    by exists (divide_255 (np_array (resize rgb (224, 224)%nat LANCZOS))), row, px.
Qed.

Lemma preprocess_image_shape_and_range_witness :
  exists tensor a3 row px,
    @preprocess_image one_pixel [x80] = Ok tensor /\
    has_shape4 1 224 224 3 tensor /\
    all_elements (fun x => in_unit_interval x = true) tensor /\
    tensor !! 0%nat = Some a3 /\ a3 !! 10%nat = Some row /\ row !! 200%nat = Some px /\
    px !! 1%nat = Some (normalised x80).
Proof.
  destruct (@preprocess_image_shape_and_range one_pixel [x80]
              {| mode := "L"; size := (1, 1)%nat; getpixel := fun _ _ _ => x80 |}
              eq_refl)
    as (rgb & tensor & _ & Hrgb & _ & Hpre & Hshape & Hrange & Hel).
  destruct (Hel 10%nat 200%nat 1%nat) as (a3 & row & px & Ha3 & Hrow & Hpx & Hc); [lia..|].
  rewrite Hrgb in Hc by discriminate.
  by exists tensor, a3, row, px.
Defined.

(** ** The endpoints *)

(** Membership of a closed string in a closed list, by computation. *)
Ltac elem_of_compute :=
  lazymatch goal with
  | |- ?x ∉ ?l => apply (proj1 (bool_decide_eq_false (x ∈ l))); vm_compute; reflexivity
  | |- ?x ∈ ?l => apply (bool_decide_unpack (x ∈ l)); vm_compute; exact I
  end.

#[local] Arguments predict_issue_and_severity : simpl never.

Section EndpointProperties.
Context `{Pillow}.
Variable model : option Model.

(** A file name whose extension is not in [ALLOWED_EXTENSIONS] is rejected
    before anything is read, decoded or predicted. *)
Lemma predict_issue_rejected (file : UploadFile) (t : list event) :
  snd (os_path.splitext (filename file)) ∉ ALLOWED_EXTENSIONS ->
  predict_issue model file t = (Raise invalid_file_type, t).
Proof.
  intros Hext. unfold predict_issue. by rewrite bool_decide_eq_false_2.
Qed.

(** Past the extension check every outcome is a response or an
    [HTTPException] raised by an [except] clause. *)
Lemma predict_issue_handled (file : UploadFile) (t : list event) :
  snd (os_path.splitext (filename file)) ∈ ALLOWED_EXTENSIONS ->
  handled (fst (predict_issue model file t)).
Proof.
  intros Hext. unfold predict_issue. rewrite bool_decide_eq_true_2 by done. simpl.
  unfold try_except.
  match goal with |- context [match ?b t with _ => _ end] => destruct (b t) as [[r|e] t'] end.
  - constructor.
  - destruct e; simpl; constructor.
Qed.

(** None of these outcomes is the rejection by the extension check, in
    whatever order the allowed extensions are printed. *)
Lemma handled_not_rejected (r : result PredictionResponse) :
  handled r ->
  forall allowed : string,
    r <> Raise (HTTPException 400 ("Invalid file type. Allowed: " ++ allowed)%string).
Proof. destruct 1; intros allowed Heq; discriminate Heq. Qed.

(** The rejection is an [HTTPException] of status 400, raised before
    anything is called. *)
Lemma predict_issue_rejected_400 (file : UploadFile) (t : list event) :
  snd (os_path.splitext (filename file)) ∉ ALLOWED_EXTENSIONS ->
  exists detail, predict_issue model file t = (Raise (HTTPException 400 detail), t).
Proof. intros Hext. rewrite predict_issue_rejected by done. by eexists. Qed.

(** An empty upload under an allowed extension: the [HTTPException] 400
    raised inside the [try] block is caught by [except Exception] and
    re-raised as a 500; nothing is decoded or predicted. *)
Lemma predict_issue_empty (name : string) (t : list event) :
  snd (os_path.splitext name) ∈ ALLOWED_EXTENSIONS ->
  predict_issue model {| filename := name; content := [] |} t =
  (Raise (HTTPException 500 "Unexpected error: 400: Empty file uploaded"), t).
Proof.
  intros Hext. unfold predict_issue. simpl. by rewrite bool_decide_eq_true_2.
Qed.

(** A successful request: one call of the model, and a response made of
    three of the four entries of the prediction dictionary. *)
Lemma predict_issue_success (m : Model) (file : UploadFile) (t : list event)
    (tensor : array4) (p : Predictions) (it sv : string) (cf scf : Float.t) :
  model = Some m ->
  snd (os_path.splitext (filename file)) ∈ ALLOWED_EXTENSIONS ->
  content file <> [] ->
  preprocess_image (content file) = Ok tensor ->
  predict m tensor = Ok p ->
  decode_predictions p = Ok (prediction_dict it sv cf scf) ->
  predict_issue model file t =
  (Ok {| issue_type := it; severity := sv; confidence := cf |}, t ++ [ModelPredict tensor]).
Proof.
  intros -> Hext Hne Hpre Hpred Hdec.
  unfold predict_issue. rewrite bool_decide_eq_true_2 by done.
  unfold try_except, mbind, Py_bind, read, mret, Py_ret, lift. simpl.
  destruct (content file) as [|b bs] eqn:Hc; [done|]. simpl.
  rewrite Hpre, predict_issue_and_severity_loaded, Hpred. simpl. rewrite Hdec. simpl.
  reflexivity.
Qed.

End EndpointProperties.

(** C1 (the code departs from it).  An upload of zero bytes named
    [photo.jpg] passes the extension check; the 400 "Empty file uploaded"
    raised inside the [try] block is caught by the [except Exception] clause
    of the same block, and the client receives a 500. *)
Theorem empty_upload_is_reported_as_500 `{Pillow} (model : option Model) (t : list event) :
  predict_issue model {| filename := "photo.jpg"; content := [] |} t =
    (Raise (HTTPException 500
              ("Unexpected error: " ++ str (HTTPException 400 "Empty file uploaded"))%string), t) /\
  status_code (fst (POST_predict model {| filename := "photo.jpg"; content := [] |} t)) = 500.
Proof.
  unfold POST_predict. rewrite predict_issue_empty; [done|].
  simpl. elem_of_compute.
Qed.

(** C2, as the specification states it, fails: [photo.Jpg] has the
    extension [.jpg] up to case, and the handler rejects it: it raises an
    [HTTPException] of status 400 before anything is read or predicted, and
    the client receives a 400. *)
Lemma mixed_case_extension_is_rejected :
  extension_allowed_ignoring_case "photo.Jpg" = true /\
  forall (pillow : Pillow) (model : option Model) (bytes : list byte) (t : list event),
    (exists detail,
       fst (predict_issue model {| filename := "photo.Jpg"; content := bytes |} t) =
       Raise (HTTPException 400 detail)) /\
    status_code (fst (POST_predict model {| filename := "photo.Jpg"; content := bytes |} t)) =
      400 /\
    snd (POST_predict model {| filename := "photo.Jpg"; content := bytes |} t) = t.
Proof.
  split; [vm_compute; reflexivity|].
  intros pillow model bytes t. unfold POST_predict.
  rewrite predict_issue_rejected; [|elem_of_compute].
  split; [by eexists|done].
Qed.

(** C2, amended.  The extension check of [/predict] is exact membership in
    the six spellings [.jpg], [.jpeg], [.png], [.JPG], [.JPEG], [.PNG]: a
    file name with one of them passes (the outcome is that of the [try]
    block, never the rejection by the extension check); for any other
    extension, mixed case included, the handler raises an [HTTPException] of
    status 400, and the trace of model calls is left as it was. *)
Theorem extension_check_is_exact `{Pillow} (model : option Model) (file : UploadFile)
    (t : list event) :
  (snd (os_path.splitext (filename file)) ∈ [".jpg"; ".jpeg"; ".png"; ".JPG"; ".JPEG"; ".PNG"] ->
   handled (fst (predict_issue model file t)) /\
   forall allowed : string,
     fst (predict_issue model file t) <>
     Raise (HTTPException 400 ("Invalid file type. Allowed: " ++ allowed)%string)) /\
  (snd (os_path.splitext (filename file)) ∉ [".jpg"; ".jpeg"; ".png"; ".JPG"; ".JPEG"; ".PNG"] ->
   (exists detail, fst (predict_issue model file t) = Raise (HTTPException 400 detail)) /\
   ~ handled (fst (predict_issue model file t)) /\
   snd (predict_issue model file t) = t).
Proof.
  split.
  - intros Hext. pose proof (predict_issue_handled model file t Hext) as Hh.
    split; [done|]. by apply handled_not_rejected.
  - intros Hext. rewrite predict_issue_rejected by done. simpl.
    split; [by eexists|]. split; [|done].
    intros Hh. by apply handled_not_rejected with (allowed := join ", " ALLOWED_EXTENSIONS) in Hh.
Qed.

Lemma extension_check_is_exact_witness :
  handled (fst (@predict_issue one_pixel None {| filename := "photo.PNG"; content := [x80] |} [])) /\
  (exists detail,
     fst (@predict_issue one_pixel None {| filename := "notes.txt"; content := [x80] |} []) =
     Raise (HTTPException 400 detail)) /\
  snd (@predict_issue one_pixel None {| filename := "notes.txt"; content := [x80] |} []) = [].
Proof.
  split.
  - apply (proj1 (@extension_check_is_exact one_pixel None
                    {| filename := "photo.PNG"; content := [x80] |} [])).
    elem_of_compute.
  - destruct (proj2 (@extension_check_is_exact one_pixel None
                       {| filename := "notes.txt"; content := [x80] |} []))
      as (Hdetail & _ & Htrace); [elem_of_compute|].
    by split.
Defined.

(** C9.  [GET /health] reports [model_loaded = true] with status "healthy"
    exactly when a model is loaded and [model_loaded = false] with status
    "model_not_loaded" exactly when none is; the status is "healthy" if and
    only if [model_loaded] is true. *)
Theorem health_reflects_model (model : option Model) :
  (is_Some model <->
   health_check model = {| status := "healthy"; model_loaded := true |}) /\
  (model = None <->
   health_check model = {| status := "model_not_loaded"; model_loaded := false |}) /\
  (status (health_check model) = "healthy" <-> model_loaded (health_check model) = true) /\
  GET_health model =
  {| status_code := 200;
     body := [("status", JStr (status (health_check model)));
              ("model_loaded", JBool (model_loaded (health_check model)))] |}.
Proof.
  destruct model as [m|]; simpl; repeat split; try done.
Qed.

(** C10.  The prediction routine puts into its dictionary a
    [severity_confidence] equal to the probability at the arg-max index of
    the severity vector; the body of a [/predict] response never has that
    field, and a 200 response has exactly [issue_type], [severity] and
    [confidence], copied from the dictionary. *)
Theorem severity_confidence_not_in_response :
  (forall (issue_probs severity_probs : vector) d,
     decode_outputs issue_probs severity_probs = Ok d ->
     exists j q, argmax severity_probs = Ok j /\ severity_probs !! j = Some q /\
                 d !! "severity_confidence" = Some (VFloat q)) /\
  (forall (pillow : Pillow) (model : option Model) (file : UploadFile) (t : list event),
     ("severity_confidence" ∉ map fst (body (fst (POST_predict model file t)))) /\
     (status_code (fst (POST_predict model file t)) = 200 ->
      map fst (body (fst (POST_predict model file t))) =
      ["issue_type"; "severity"; "confidence"])) /\
  (forall (pillow : Pillow) (m : Model) (file : UploadFile) (t : list event)
          tensor p it sv cf scf,
     snd (os_path.splitext (filename file)) ∈ ALLOWED_EXTENSIONS ->
     content file <> [] ->
     preprocess_image (content file) = Ok tensor ->
     predict m tensor = Ok p ->
     decode_predictions p = Ok (prediction_dict it sv cf scf) ->
     fst (POST_predict (Some m) file t) =
     {| status_code := 200;
        body := [("issue_type", JStr it); ("severity", JStr sv); ("confidence", JNum cf)] |}).
Proof.
  split; [|split].
  - intros issue_probs severity_probs d Hd.
    apply decode_outputs_Ok in Hd as (i & j & it & sv & p & q & _ & Hj & _ & _ & _ & Hq & ->).
    by exists j, q.
  - intros pillow model file t. unfold POST_predict.
    destruct (decide (snd (os_path.splitext (filename file)) ∈ ALLOWED_EXTENSIONS))
      as [Hext|Hext].
    + pose proof (predict_issue_handled model file t Hext) as Hh.
      destruct (predict_issue model file t) as [r t']. simpl in *.
      destruct Hh; simpl; (split; [elem_of_compute|done]).
    + rewrite predict_issue_rejected by done. simpl. split; [elem_of_compute|done].
  - intros pillow m file t tensor p it sv cf scf Hext Hne Hpre Hpred Hdec.
    unfold POST_predict.
    by rewrite (predict_issue_success (Some m) m file t tensor p it sv cf scf).
Qed.

Lemma severity_confidence_not_in_response_witness :
  (exists j q,
     argmax example_severity_probs = Ok j /\ example_severity_probs !! j = Some q /\
     prediction_dict "garbage" "high" (Float.lit 0.7) (Float.lit 0.5) !! "severity_confidence" =
       Some (VFloat q)) /\
  fst (@POST_predict one_pixel
         (Some (constant_model (PredSeq [[example_issue_probs]; [example_severity_probs]])))
         {| filename := "photo.PNG"; content := [x80] |} []) =
  {| status_code := 200;
     body := [("issue_type", JStr "garbage"); ("severity", JStr "high");
              ("confidence", JNum (Float.lit 0.7))] |}.
Proof.
  split.
  - apply (proj1 severity_confidence_not_in_response
             example_issue_probs example_severity_probs).
    reflexivity.
  - eapply (proj2 (proj2 severity_confidence_not_in_response) one_pixel).
    + simpl. elem_of_compute.
    + discriminate.
    + reflexivity.
    + reflexivity.
    + reflexivity.
Defined.

(** * Further properties of the service *)

(** ** Outcomes of [POST /predict] *)

(** X1. Every run of the handler [predict_issue] ends in one of three ways:
    it returns a [PredictionResponse], or it raises an [HTTPException] of
    status 400, or it raises an [HTTPException] of status 500; no other
    exception leaves it, whatever Pillow and the model do.  (This is about
    the handler once it runs; a request that FastAPI refuses beforehand,
    with a 422, never runs it.) *)
Theorem predict_issue_returns_or_raises_400_or_500 `{Pillow} (model : option Model)
    (file : UploadFile) (t : list event) :
  (exists r, fst (predict_issue model file t) = Ok r) \/
  (exists detail, fst (predict_issue model file t) = Raise (HTTPException 400 detail)) \/
  (exists detail, fst (predict_issue model file t) = Raise (HTTPException 500 detail)).
Proof.
  destruct (decide (snd (os_path.splitext (filename file)) ∈ ALLOWED_EXTENSIONS)) as [Hext|Hext].
  - pose proof (predict_issue_handled model file t Hext) as Hh.
    destruct (predict_issue model file t) as [r t']. simpl in *.
    destruct Hh; [left|right; left|right; right..]; by eexists.
  - rewrite predict_issue_rejected by done. simpl. right. left. by eexists.
Qed.

(** The trace of a request: untouched, or extended by the one call of the
    loaded model on the preprocessed upload. *)
Lemma predict_issue_trace `{Pillow} (model : option Model) (file : UploadFile)
    (t : list event) :
  snd (predict_issue model file t) = t \/
  exists m tensor,
    model = Some m /\ preprocess_image (content file) = Ok tensor /\
    snd (predict_issue model file t) = t ++ [ModelPredict tensor].
Proof.
  unfold predict_issue.
  destruct (bool_decide (snd (os_path.splitext (filename file)) ∈ ALLOWED_EXTENSIONS));
    simpl; [|by left].
  unfold try_except, mbind, Py_bind, read, mret, Py_ret, lift. simpl.
  destruct (content file) as [|b bs]; simpl; [by left|].
  destruct (preprocess_image (b :: bs)) as [tensor|e] eqn:Hpre; simpl;
    [|destruct e; simpl; by left].
  destruct model as [m|]; [|simpl; by left].
  right. exists m, tensor. split; [done|]. split; [done|].
  rewrite predict_issue_and_severity_loaded.
  destruct (predict m tensor ≫= decode_predictions) as [d|e]; simpl.
  - match goal with
    | |- context [match ?x with Ok _ => _ | Raise _ => _ end] => destruct x as [r|e]
    end; simpl; [done|]. by destruct e.
  - done.
Qed.

(** X2. A request calls the model at most once, and only on the tensor that
    [preprocess_image] made of the upload; what the trace held before is
    kept; with no model loaded nothing is called. *)
Theorem predict_calls_model_at_most_once `{Pillow} (model : option Model)
    (file : UploadFile) (t : list event) :
  exists calls,
    snd (predict_issue model file t) = t ++ calls /\
    (length calls <= 1)%nat /\
    (forall x, ModelPredict x ∈ calls -> preprocess_image (content file) = Ok x) /\
    (model = None -> calls = []).
Proof.
  destruct (predict_issue_trace model file t) as [Ht|(m & tensor & Hm & Hpre & Ht)].
  - exists []. rewrite app_nil_r. split; [done|]. split; [simpl; lia|].
    split; [|done]. intros x Hx. by apply elem_of_nil in Hx.
  - exists [ModelPredict tensor]. split; [done|]. split; [simpl; lia|].
    split; [|by rewrite Hm]. intros x Hx.
    apply list_elem_of_singleton in Hx. by injection Hx as ->.
Qed.

(** Past the two checks of the upload, [predict_issue] is its [try] block
    on the preprocessed bytes. *)
Lemma predict_issue_checked `{Pillow} (model : option Model) (file : UploadFile)
    (t : list event) :
  snd (os_path.splitext (filename file)) ∈ ALLOWED_EXTENSIONS ->
  content file <> [] ->
  predict_issue model file t =
  try_except
    (image_array ← lift (preprocess_image (content file));
     result ← predict_issue_and_severity model image_array;
     lift (it ← dict_getitem result "issue_type";
           sv ← dict_getitem result "severity";
           cf ← dict_getitem result "confidence";
           new_PredictionResponse it sv cf))
    [ (ValueErrorC, fun e =>
         raise (HTTPException HTTP_400_BAD_REQUEST
                  ("Image processing error: " ++ str e)%string));
      (RuntimeErrorC, fun e =>
         raise (HTTPException HTTP_500_INTERNAL_SERVER_ERROR
                  ("Model inference error: " ++ str e)%string));
      (ExceptionC, fun e =>
         raise (HTTPException HTTP_500_INTERNAL_SERVER_ERROR
                  ("Unexpected error: " ++ str e)%string)) ] t.
Proof.
  intros Hext Hne. unfold predict_issue. rewrite bool_decide_eq_true_2 by done. simpl.
  unfold try_except, mbind, Py_bind, read, mret, Py_ret. simpl.
  by destruct (content file).
Qed.

(** X3. With no model loaded, an upload that passes the checks and decodes
    is answered with a 500 whose detail says that the model is not loaded,
    and the trace is left as it was. *)
Theorem predict_without_model_is_500 `{Pillow} (file : UploadFile) (t : list event)
    (tensor : array4) :
  snd (os_path.splitext (filename file)) ∈ ALLOWED_EXTENSIONS ->
  content file <> [] ->
  preprocess_image (content file) = Ok tensor ->
  POST_predict None file t =
  ({| status_code := 500;
      body := [("detail",
                JStr "Model inference error: Model not loaded. Please restart the service.")] |},
   t).
Proof.
  intros Hext Hne Hpre. unfold POST_predict.
  rewrite predict_issue_checked by done.
  unfold try_except, mbind, Py_bind, lift. rewrite Hpre. reflexivity.
Qed.

Lemma predict_without_model_is_500_witness :
  @POST_predict one_pixel None {| filename := "photo.PNG"; content := [x80] |} [] =
  ({| status_code := 500;
      body := [("detail",
                JStr "Model inference error: Model not loaded. Please restart the service.")] |},
   []).
Proof.
  eapply (@predict_without_model_is_500 one_pixel).
  - simpl. elem_of_compute.
  - discriminate.
  - reflexivity.
Defined.

(** X4. Bytes that Pillow cannot open are answered with a 400 whose detail
    wraps the decoder's message twice, as "Image processing error: Image
    preprocessing failed: ..."; the model, loaded or not, is not called. *)
Theorem undecodable_upload_is_400 `{Pillow} (model : option Model) (file : UploadFile)
    (t : list event) (e : Exception) :
  snd (os_path.splitext (filename file)) ∈ ALLOWED_EXTENSIONS ->
  content file <> [] ->
  Image_open (content file) = Raise e ->
  POST_predict model file t =
  ({| status_code := 400;
      body := [("detail",
                JStr ("Image processing error: Image preprocessing failed: " ++ str e)%string)] |},
   t).
Proof.
  intros Hext Hne Hopen. unfold POST_predict.
  rewrite predict_issue_checked by done.
  unfold try_except, mbind, Py_bind, lift, preprocess_image. rewrite Hopen. reflexivity.
Qed.

Lemma undecodable_upload_is_400_witness :
  @POST_predict signature_only
    (Some (constant_model (PredSeq [[example_issue_probs]; [example_severity_probs]])))
    {| filename := "notes.jpg"; content := [x80] |} [] =
  ({| status_code := 400;
      body := [("detail",
                JStr "Image processing error: Image preprocessing failed: cannot identify image file")] |},
   []).
Proof.
  eapply (@undecodable_upload_is_400 signature_only _ _ _
            (OtherError "cannot identify image file")).
  - simpl. elem_of_compute.
  - discriminate.
  - reflexivity.
Defined.

(** X5. Whatever exception the model raises on the tensor, a [ValueError]
    included, and whatever fails in decoding what it returned, the request
    is answered with a 500 "Model inference error: Model inference failed:
    ..." after exactly one call of the model. *)
Theorem model_failure_is_500 `{Pillow} (m : Model) (file : UploadFile) (t : list event)
    (tensor : array4) (e : Exception) :
  snd (os_path.splitext (filename file)) ∈ ALLOWED_EXTENSIONS ->
  content file <> [] ->
  preprocess_image (content file) = Ok tensor ->
  predict m tensor ≫= decode_predictions = Raise e ->
  POST_predict (Some m) file t =
  ({| status_code := 500;
      body := [("detail",
                JStr ("Model inference error: Model inference failed: " ++ str e)%string)] |},
   t ++ [ModelPredict tensor]).
Proof.
  intros Hext Hne Hpre Hfail. unfold POST_predict.
  rewrite predict_issue_checked by done.
  unfold try_except, mbind, Py_bind, lift. rewrite Hpre.
  fold (@mbind result _ _ _ decode_predictions (predict m tensor)).
  rewrite predict_issue_and_severity_loaded.
  change (result_bind _ _ decode_predictions (predict m tensor))
    with (predict m tensor ≫= decode_predictions).
  rewrite Hfail. reflexivity.
Qed.

Lemma model_failure_is_500_witness :
  @POST_predict one_pixel (Some (failing_model (ValueError "bad input")))
    {| filename := "photo.PNG"; content := [x80] |} [] =
  ({| status_code := 500;
      body := [("detail",
                JStr "Model inference error: Model inference failed: bad input")] |},
   [ModelPredict grey_tensor]).
Proof.
  apply (@model_failure_is_500 one_pixel (failing_model (ValueError "bad input"))
           {| filename := "photo.PNG"; content := [x80] |} [] grey_tensor
           (ValueError "bad input")).
  - simpl. elem_of_compute.
  - discriminate.
  - reflexivity.
  - reflexivity.
Defined.

(** X6. A 200 response can only come from a loaded model called on the
    preprocessed upload: its issue type and severity are the labels of
    [ISSUE_CLASSES] and [SEVERITY_CLASSES] at the arg-max indices of the two
    heads, so always members of the two enumerations, and its confidence is
    the issue head's value at its arg-max index. *)
Theorem response_labels_from_enumerations `{Pillow} (model : option Model)
    (file : UploadFile) (t : list event) (r : PredictionResponse) :
  fst (predict_issue model file t) = Ok r ->
  issue_type r ∈ ISSUE_CLASSES /\ severity r ∈ SEVERITY_CLASSES /\
  exists m tensor p issue_probs severity_probs i j,
    model = Some m /\
    preprocess_image (content file) = Ok tensor /\
    predict m tensor = Ok p /\
    extract_outputs p = Ok (issue_probs, severity_probs) /\
    argmax issue_probs = Ok i /\ argmax severity_probs = Ok j /\
    ISSUE_CLASSES !! i = Some (issue_type r) /\
    SEVERITY_CLASSES !! j = Some (severity r) /\
    issue_probs !! i = Some (confidence r).
Proof.
  intros Hok.
  destruct (decide (snd (os_path.splitext (filename file)) ∈ ALLOWED_EXTENSIONS))
    as [Hext|Hext]; [|by rewrite predict_issue_rejected in Hok].
  destruct (decide (content file = [])) as [Hc|Hc].
  { destruct file as [name bytes]. simpl in *. subst bytes.
    by rewrite predict_issue_empty in Hok. }
  rewrite predict_issue_checked in Hok by done.
  unfold try_except, mbind, Py_bind, lift in Hok.
  destruct (preprocess_image (content file)) as [tensor|e] eqn:Hpre;
    [|by destruct e].
  destruct model as [m|]; [|done].
  rewrite predict_issue_and_severity_loaded in Hok.
  destruct (predict m tensor) as [p|e] eqn:Hp; [|done]. simpl in Hok.
  unfold decode_predictions in Hok. unfold mbind at 1, result_bind at 1 in Hok.
  destruct (extract_outputs p) as [[issue_probs severity_probs]|e] eqn:Hex; [|done].
  destruct (decode_outputs issue_probs severity_probs) as [d|e] eqn:Hd; [|done].
  apply decode_outputs_Ok in Hd
    as (i & j & it & sv & pi & q & Hi & Hj & Hit & Hsv & Hpi & _ & ->).
  simpl in Hok. injection Hok as <-. simpl.
  split; [by eapply list_elem_of_lookup_2|]. split; [by eapply list_elem_of_lookup_2|].
  by exists m, tensor, p, issue_probs, severity_probs, i, j.
Qed.

Lemma response_labels_from_enumerations_witness :
  "garbage" ∈ ISSUE_CLASSES /\ "high" ∈ SEVERITY_CLASSES /\
  exists m tensor p issue_probs severity_probs i j,
    Some (constant_model (PredSeq [[example_issue_probs]; [example_severity_probs]])) = Some m /\
    @preprocess_image one_pixel [x80] = Ok tensor /\
    predict m tensor = Ok p /\
    extract_outputs p = Ok (issue_probs, severity_probs) /\
    argmax issue_probs = Ok i /\ argmax severity_probs = Ok j /\
    ISSUE_CLASSES !! i = Some "garbage" /\
    SEVERITY_CLASSES !! j = Some "high" /\
    issue_probs !! i = Some (Float.lit 0.7).
Proof.
  apply (@response_labels_from_enumerations one_pixel
           (Some (constant_model (PredSeq [[example_issue_probs]; [example_severity_probs]])))
           {| filename := "photo.PNG"; content := [x80] |} []
           {| issue_type := "garbage"; severity := "high"; confidence := Float.lit 0.7 |}).
  erewrite (@predict_issue_success one_pixel _ _
              {| filename := "photo.PNG"; content := [x80] |} [] grey_tensor);
    [reflexivity|reflexivity|simpl; elem_of_compute|discriminate|reflexivity|reflexivity|].
  reflexivity.
Defined.

(** X7. Beyond its extension the file name plays no part: two uploads of the
    same bytes under any two allowed names have the same outcome and the
    same trace. *)
Theorem outcome_independent_of_name `{Pillow} (model : option Model)
    (file file' : UploadFile) (t : list event) :
  snd (os_path.splitext (filename file)) ∈ ALLOWED_EXTENSIONS ->
  snd (os_path.splitext (filename file')) ∈ ALLOWED_EXTENSIONS ->
  content file = content file' ->
  predict_issue model file t = predict_issue model file' t.
Proof.
  intros Hext Hext' Hc. unfold predict_issue.
  rewrite !bool_decide_eq_true_2 by done. simpl.
  unfold try_except, mbind, Py_bind, read, mret, Py_ret. simpl. by rewrite Hc.
Qed.

Lemma outcome_independent_of_name_witness :
  @predict_issue one_pixel None {| filename := "a.jpg"; content := [x80] |} [] =
  @predict_issue one_pixel None {| filename := "dir/b.PNG"; content := [x80] |} [].
Proof.
  apply (@outcome_independent_of_name one_pixel); [simpl; elem_of_compute..|reflexivity].
Defined.

(** ** File names *)

Lemma list_ascii_of_string_app (s1 s2 : string) :
  list_ascii_of_string (s1 ++ s2)%string = list_ascii_of_string s1 ++ list_ascii_of_string s2.
Proof. induction s1 as [|a s1 IH]; simpl; [done|]. by rewrite IH. Qed.

Lemma string_of_list_ascii_app (l1 l2 : list ascii) :
  string_of_list_ascii (l1 ++ l2) = (string_of_list_ascii l1 ++ string_of_list_ascii l2)%string.
Proof. induction l1 as [|a l1 IH]; simpl; [done|]. by rewrite IH. Qed.

Lemma rfind_from_absent (p : list ascii) (c : ascii) (i found : Z) :
  c ∉ p -> os_path.rfind_from p c i found = found.
Proof.
  revert i found. induction p as [|a p IH]; intros i found Hc; simpl; [done|].
  apply not_elem_of_cons in Hc as [Hne Hc]. rewrite IH by done.
  destruct (Ascii.eqb_spec a c); congruence.
Qed.

Lemma rfind_from_app (p q : list ascii) (c : ascii) (i found : Z) :
  os_path.rfind_from (p ++ q) c i found =
  os_path.rfind_from q c (i + Z.of_nat (length p)) (os_path.rfind_from p c i found).
Proof.
  revert i found. induction p as [|a p IH]; intros i found; simpl.
  - by rewrite Z.add_0_r.
  - rewrite IH. f_equal. lia.
Qed.

(** [rfind] answers [-1] or an index at which the character stands. *)
Lemma rfind_from_lookup (p : list ascii) (c : ascii) (i found : Z) :
  os_path.rfind_from p c i found = found \/
  (i <= os_path.rfind_from p c i found /\
   p !! Z.to_nat (os_path.rfind_from p c i found - i) = Some c).
Proof.
  revert i found. induction p as [|a p IH]; intros i found; simpl; [by left|].
  destruct (IH (i + 1) (if Ascii.eqb a c then i else found)) as [Hr|[Hle Hl]].
  - rewrite Hr. destruct (Ascii.eqb_spec a c) as [->|]; [|by left].
    right. split; [lia|]. by rewrite Z.sub_diag.
  - right. split; [lia|].
    replace (Z.to_nat (os_path.rfind_from p c (i + 1) (if Ascii.eqb a c then i else found) - i))
      with (S (Z.to_nat (os_path.rfind_from p c (i + 1)
                           (if Ascii.eqb a c then i else found) - (i + 1)))) by lia.
    done.
Qed.

Lemma rfind_ge (p : list ascii) (c : ascii) : -1 <= os_path.rfind p c.
Proof.
  unfold os_path.rfind. destruct (rfind_from_lookup p c 0 (-1)) as [->|[? _]]; lia.
Qed.

Lemma skip_leading_dots_Some (n : nat) (p : list ascii) (f d : Z) r :
  os_path.skip_leading_dots n p f d = Some r ->
  r = (os_path.slice_to p d, os_path.slice_from p d).
Proof.
  revert f. induction n as [|n IH]; intros f; simpl; [done|].
  destruct (p !! Z.to_nat f) as [a|]; [|congruence].
  destruct a as [[] [] [] [] [] [] [] []]; try congruence; apply IH.
Qed.

Lemma append_empty_r (s : string) : (s ++ "")%string = s.
Proof.
  induction s as [|a s IH]; [done|].
  change (String a (s ++ "")%string = String a s). by rewrite IH.
Qed.

(** X8. [os.path.splitext], as [predict_issue] uses it, cuts the name in
    two: root and extension put together again give the name, and the
    extension is empty or opens with a dot. *)
Theorem splitext_cuts_the_name (p : string) :
  (fst (os_path.splitext p) ++ snd (os_path.splitext p))%string = p /\
  (snd (os_path.splitext p) = "" \/
   exists rest, snd (os_path.splitext p) = String "."%char rest).
Proof.
  unfold os_path.splitext.
  set (l := list_ascii_of_string p).
  destruct (os_path.rfind l "." >? os_path.rfind l "/") eqn:Hgt; simpl;
    [|split; [apply append_empty_r|by left]].
  destruct (os_path.skip_leading_dots _ l _ _) as [r|] eqn:Hskip; simpl;
    [|split; [apply append_empty_r|by left]].
  apply skip_leading_dots_Some in Hskip as ->. simpl.
  unfold os_path.slice_to, os_path.slice_from. split.
  - rewrite <- string_of_list_ascii_app, take_drop. apply string_of_list_ascii_of_string.
  - right. pose proof (rfind_ge l "/") as Hsep.
    apply Z.gtb_lt in Hgt. unfold os_path.rfind in *.
    destruct (rfind_from_lookup l "." 0 (-1)) as [Hr|[_ Hl]]; [lia|].
    rewrite Z.sub_0_r in Hl.
    erewrite drop_S by exact Hl. simpl. by eexists.
Qed.

Lemma splitext_without_dot (p : string) :
  "."%char ∉ list_ascii_of_string p -> os_path.splitext p = (p, "").
Proof.
  intros Hdot. unfold os_path.splitext.
  pose proof (rfind_ge (list_ascii_of_string p) "/") as Hsep.
  unfold os_path.rfind at 1. rewrite rfind_from_absent by done.
  by destruct (Z.gtb_spec (-1) (os_path.rfind (list_ascii_of_string p) "/")); [lia|].
Qed.

(** X9. A file name with no dot in it has no extension, and the handler
    rejects it whatever its bytes are: it raises an [HTTPException] of
    status 400 before anything is read or predicted, and the trace of model
    calls is left as it was. *)
Theorem name_without_dot_is_rejected `{Pillow} (model : option Model) (file : UploadFile)
    (t : list event) :
  "."%char ∉ list_ascii_of_string (filename file) ->
  os_path.splitext (filename file) = (filename file, "") /\
  (exists detail, fst (predict_issue model file t) = Raise (HTTPException 400 detail)) /\
  snd (predict_issue model file t) = t.
Proof.
  intros Hdot. split; [by apply splitext_without_dot|].
  destruct (predict_issue_rejected_400 model file t) as [detail ->]; [|by split; [eexists|]].
  rewrite splitext_without_dot by done. simpl. elem_of_compute.
Qed.

Lemma name_without_dot_is_rejected_witness :
  os_path.splitext "holiday_jpg" = ("holiday_jpg", "") /\
  (exists detail,
     fst (@predict_issue one_pixel None {| filename := "holiday_jpg"; content := [x80] |} []) =
     Raise (HTTPException 400 detail)) /\
  snd (@predict_issue one_pixel None {| filename := "holiday_jpg"; content := [x80] |} []) = [].
Proof.
  apply (@name_without_dot_is_rejected one_pixel None
           {| filename := "holiday_jpg"; content := [x80] |} []).
  simpl. elem_of_compute.
Defined.

Lemma splitext_hidden (rest : string) :
  "."%char ∉ list_ascii_of_string rest -> "/"%char ∉ list_ascii_of_string rest ->
  os_path.splitext (String "."%char rest) = (String "."%char rest, "").
Proof.
  intros Hdot Hsep. unfold os_path.splitext, os_path.rfind. simpl.
  by rewrite !rfind_from_absent.
Qed.

(** X10. A name that is nothing but a dot and an extension, such as [.png],
    counts as a hidden file without extension: although it ends in an
    allowed extension, the handler raises an [HTTPException] of status 400
    before anything is read or predicted, and the trace of model calls is
    left as it was. *)
Theorem hidden_name_is_rejected `{Pillow} (model : option Model) (rest : string)
    (bytes : list byte) (t : list event) :
  "."%char ∉ list_ascii_of_string rest -> "/"%char ∉ list_ascii_of_string rest ->
  os_path.splitext (String "."%char rest) = (String "."%char rest, "") /\
  (exists detail,
     fst (predict_issue model {| filename := String "."%char rest; content := bytes |} t) =
     Raise (HTTPException 400 detail)) /\
  snd (predict_issue model {| filename := String "."%char rest; content := bytes |} t) = t.
Proof.
  intros Hdot Hsep. split; [by apply splitext_hidden|].
  destruct (predict_issue_rejected_400 model
              {| filename := String "."%char rest; content := bytes |} t)
    as [detail ->]; [|by split; [eexists|]].
  simpl. rewrite splitext_hidden by done. simpl. elem_of_compute.
Qed.

Lemma hidden_name_is_rejected_witness :
  os_path.splitext ".png" = (".png", "") /\
  (exists detail,
     fst (@predict_issue one_pixel None {| filename := ".png"; content := [x80] |} []) =
     Raise (HTTPException 400 detail)) /\
  snd (@predict_issue one_pixel None {| filename := ".png"; content := [x80] |} []) = [].
Proof.
  apply (@hidden_name_is_rejected one_pixel None "png" [x80] []); elem_of_compute.
Defined.

Lemma skip_leading_dots_first (n : nat) (p : list ascii) (a : ascii) (f d : Z) :
  p !! Z.to_nat f = Some a -> "."%char <> a ->
  os_path.skip_leading_dots (S n) p f d = Some (os_path.slice_to p d, os_path.slice_from p d).
Proof.
  intros Hl Ha. simpl. rewrite Hl.
  by destruct a as [[] [] [] [] [] [] [] []].
Qed.

Lemma splitext_plain (stem rest : string) :
  stem <> "" ->
  "."%char ∉ list_ascii_of_string stem -> "/"%char ∉ list_ascii_of_string stem ->
  "."%char ∉ list_ascii_of_string rest -> "/"%char ∉ list_ascii_of_string rest ->
  os_path.splitext (stem ++ String "."%char rest)%string = (stem, String "."%char rest).
Proof.
  intros Hne Hdot Hsep Hdot' Hsep'. unfold os_path.splitext.
  rewrite list_ascii_of_string_app.
  change (list_ascii_of_string (String "."%char rest))
    with ("."%char :: list_ascii_of_string rest).
  remember (list_ascii_of_string stem) as ls eqn:Els.
  remember (list_ascii_of_string rest) as lr eqn:Elr.
  assert (Hs : os_path.rfind (ls ++ "."%char :: lr) "/" = -1).
  { unfold os_path.rfind. apply rfind_from_absent.
    rewrite not_elem_of_app, not_elem_of_cons. by repeat split. }
  assert (Hd : os_path.rfind (ls ++ "."%char :: lr) "." = Z.of_nat (length ls)).
  { unfold os_path.rfind. rewrite rfind_from_app, (rfind_from_absent ls) by done.
    simpl. by rewrite (rfind_from_absent lr). }
  rewrite Hs, Hd.
  destruct (Z.gtb_spec (Z.of_nat (length ls)) (-1)); [|lia].
  replace (Z.to_nat (Z.of_nat (length ls) - (-1 + 1))) with (length ls) by lia.
  replace (-1 + 1) with 0 by lia.
  assert (Hto : os_path.slice_to (ls ++ "."%char :: lr) (Z.of_nat (length ls)) = stem).
  { unfold os_path.slice_to. rewrite Nat2Z.id, take_app_length, Els.
    apply string_of_list_ascii_of_string. }
  assert (Hfrom : os_path.slice_from (ls ++ "."%char :: lr) (Z.of_nat (length ls)) =
                  String "."%char rest).
  { unfold os_path.slice_from. rewrite Nat2Z.id, drop_app_length, Elr. simpl.
    by rewrite string_of_list_ascii_of_string. }
  remember (Z.of_nat (length ls)) as d eqn:Ed.
  destruct ls as [|a ls'].
  { destruct stem; [done|discriminate]. }
  apply not_elem_of_cons in Hdot as [Ha _].
  rewrite (skip_leading_dots_first (length ls') _ a) by done.
  by rewrite Hto, Hfrom.
Qed.

(** X11. A plain name, a non-empty stem free of dots and slashes followed by
    one of the six allowed extensions, is split into that stem and that
    extension and passes the extension check. *)
Theorem plain_name_passes_extension_check `{Pillow} (model : option Model)
    (stem ext : string) (bytes : list byte) (t : list event) :
  stem <> "" ->
  "."%char ∉ list_ascii_of_string stem -> "/"%char ∉ list_ascii_of_string stem ->
  ext ∈ ALLOWED_EXTENSIONS ->
  os_path.splitext (stem ++ ext)%string = (stem, ext) /\
  handled (fst (predict_issue model {| filename := (stem ++ ext)%string; content := bytes |} t)).
Proof.
  intros Hne Hdot Hsep Hext.
  assert (Hsplit : os_path.splitext (stem ++ ext)%string = (stem, ext)).
  { unfold ALLOWED_EXTENSIONS in Hext.
    repeat (apply elem_of_cons in Hext as [->|Hext]);
      [apply splitext_plain; try done; elem_of_compute..|by apply elem_of_nil in Hext]. }
  split; [done|]. apply predict_issue_handled. simpl. by rewrite Hsplit.
Qed.

Lemma plain_name_passes_extension_check_witness :
  os_path.splitext "road_42.JPEG" = ("road_42", ".JPEG") /\
  handled (fst (@predict_issue one_pixel None
                  {| filename := "road_42.JPEG"; content := [x80] |} [])).
Proof.
  apply (@plain_name_passes_extension_check one_pixel None "road_42" ".JPEG" [x80] []).
  - discriminate.
  - elem_of_compute.
  - elem_of_compute.
  - elem_of_compute.
Defined.

(** ** What the decoder reads of the model's answer *)

(** X12. A head that the model did not return stops the decoding before
    any arg-max: a dictionary without ["issue_output"], or with it but
    without ["severity_output"], fails with the [KeyError] of that key, and
    a sequence holding the issue output alone fails with an [IndexError]. *)
Theorem missing_head_fails :
  (forall d : gmap string batch,
     d !! "issue_output" = None ->
     decode_predictions (PredDict d) = Raise (KeyError "'issue_output'")) /\
  (forall (d : gmap string batch) issue_probs rows,
     d !! "issue_output" = Some (issue_probs :: rows) ->
     d !! "severity_output" = None ->
     decode_predictions (PredDict d) = Raise (KeyError "'severity_output'")) /\
  (forall issue_probs rows,
     decode_predictions (PredSeq [issue_probs :: rows]) =
     Raise (IndexError "list index out of range")) /\
  decode_predictions (PredSeq []) = Raise (IndexError "list index out of range").
Proof.
  unfold decode_predictions, extract_outputs, dict_getitem. repeat split.
  - by intros d ->.
  - by intros d issue_probs rows -> ->.
Qed.

Lemma missing_head_fails_witness :
  decode_predictions (PredDict (<["severity_output" := [example_severity_probs]]> ∅)) =
    Raise (KeyError "'issue_output'") /\
  decode_predictions (PredDict (<["issue_output" := [example_issue_probs]]> ∅)) =
    Raise (KeyError "'severity_output'").
Proof.
  split.
  - apply (proj1 missing_head_fails). reflexivity.
  - apply (proj1 (proj2 missing_head_fails) _ example_issue_probs []); reflexivity.
Defined.

(** X13. Of what the model returns only the first row of each of the two
    heads is decoded: further rows of a batch, further outputs of a sequence
    and further keys of a dictionary change nothing. *)
Theorem only_first_rows_are_decoded (issue_probs severity_probs : vector)
    (rows rows' : batch) :
  (forall more : list batch,
     decode_predictions (PredSeq ((issue_probs :: rows) :: (severity_probs :: rows') :: more)) =
     decode_outputs issue_probs severity_probs) /\
  (forall d : gmap string batch,
     d !! "issue_output" = Some (issue_probs :: rows) ->
     d !! "severity_output" = Some (severity_probs :: rows') ->
     decode_predictions (PredDict d) = decode_outputs issue_probs severity_probs).
Proof.
  unfold decode_predictions, extract_outputs, dict_getitem. split; [done|].
  by intros d -> ->.
Qed.

Lemma only_first_rows_are_decoded_witness :
  decode_predictions
    (PredDict (<["issue_output" := [example_issue_probs; tie_probs]]>
               (<["severity_output" := [example_severity_probs]]>
                (<["risk" := [tie_probs]]> ∅)))) =
  decode_outputs example_issue_probs example_severity_probs.
Proof.
  apply (proj2 (only_first_rows_are_decoded example_issue_probs example_severity_probs
                  [tie_probs] [])); reflexivity.
Defined.

(** ** Preprocessing *)

(** X15. Every element of the tensor is the normalized intensity of the
    pixel that Pillow's Lanczos resampling of the RGB image holds at that
    row, column and band: element [[0, y, x, c]] is pixel [(x, y)], band
    [c], divided by 255. *)
Theorem tensor_elements_are_normalised_pixels `{Pillow} (image_bytes : list byte)
    (image : Image) (y x c : nat) :
  Image_open image_bytes = Ok image ->
  (y < 224)%nat -> (x < 224)%nat -> (c < 3)%nat ->
  exists tensor a3 row px,
    preprocess_image image_bytes = Ok tensor /\
    tensor !! 0%nat = Some a3 /\ a3 !! y = Some row /\ row !! x = Some px /\
    px !! c =
    Some (normalised
            (getpixel
               (resize (if negb (mode image =? "RGB")%string
                        then convert image "RGB" else image)
                  (224, 224)%nat LANCZOS) x y c)).
Proof.
  intros Hopen Hy Hx Hc.
  destruct (rgb_before_resize image) as [Hmode _].
  set (rgb := if negb (mode image =? "RGB")%string then convert image "RGB" else image) in *.
  set (resized := resize rgb (224, 224)%nat LANCZOS).
  assert (Harr : np_array resized =
                 tabulate 224 (fun y => tabulate 224 (fun x => tabulate 3 (fun c =>
                   float32_of_uint8 (getpixel resized x y c))))).
  { unfold np_array. change (size resized) with (224, 224)%nat.
    change (mode resized) with (mode rgb). by rewrite Hmode, bands_RGB. }
  exists (expand_dims (divide_255 (np_array resized))), (divide_255 (np_array resized)),
    (map (map (fun v => Float.div32 v (Float.float32_of_Z 255)))
       (tabulate 224 (fun x => tabulate 3 (fun c => float32_of_uint8 (getpixel resized x y c))))),
    (map (fun v => Float.div32 v (Float.float32_of_Z 255))
       (tabulate 3 (fun c => float32_of_uint8 (getpixel resized x y c)))).
  split; [unfold preprocess_image; rewrite Hopen; reflexivity|].
  split; [reflexivity|].
  unfold divide_255. rewrite Harr.
  split; [by rewrite list_lookup_fmap, lookup_tabulate|].
  split; [by rewrite list_lookup_fmap, lookup_tabulate|].
  by rewrite list_lookup_fmap, lookup_tabulate.
Qed.

Lemma tensor_elements_are_normalised_pixels_witness :
  exists tensor a3 row px,
    @preprocess_image one_pixel [x80] = Ok tensor /\
    tensor !! 0%nat = Some a3 /\ a3 !! 100%nat = Some row /\ row !! 7%nat = Some px /\
    px !! 2%nat = Some (normalised x80).
Proof.
  apply (@tensor_elements_are_normalised_pixels one_pixel [x80]
           {| mode := "L"; size := (1, 1)%nat; getpixel := fun _ _ _ => x80 |}
           100 7 2 eq_refl); lia.
Defined.

Lemma increasing_lookup (l : vector) (i j : nat) x y :
  increasing l = true -> (i < j)%nat -> l !! i = Some x -> l !! j = Some y ->
  Float.ltb x y = true.
Proof.
  revert i j. induction l as [|a l IH]; intros i j Hinc Hij Hi Hj; [done|].
  simpl in Hinc. apply andb_true_iff in Hinc as [Ha Hinc].
  destruct j as [|j]; [lia|]. simpl in Hj.
  destruct i as [|i]; simpl in Hi.
  - injection Hi as ->. rewrite forallb_forall in Ha. apply Ha.
    apply list_elem_of_In. by eapply list_elem_of_lookup_2.
  - eapply (IH i j); [done|lia|done..].
Qed.

Lemma all_bytes_lookup (b : byte) : all_bytes !! N.to_nat (Byte.to_N b) = Some b.
Proof.
  unfold all_bytes. rewrite list_lookup_fmap, lookup_seq_lt.
  - simpl. by rewrite N2Nat.id, Byte.of_to_N.
  - pose proof (Byte.to_N_bounded b). lia.
Qed.

Lemma normalised_increasing : increasing (map normalised all_bytes) = true.
Proof. vm_compute. reflexivity. Qed.

(** X16. The division by 255 in [float32] keeps the order of the
    intensities strictly, so no two of the 256 intensities fall together;
    black becomes [0.0] and white exactly [1.0]. *)
Theorem normalisation_keeps_order (b1 b2 : byte) :
  ((Byte.to_N b1 < Byte.to_N b2)%N -> Float.ltb (normalised b1) (normalised b2) = true) /\
  (normalised b1 = normalised b2 -> b1 = b2) /\
  normalised x00 = Float.zero /\ normalised xff = Float.one32.
Proof.
  assert (Hlt : forall a b, (Byte.to_N a < Byte.to_N b)%N ->
                            Float.ltb (normalised a) (normalised b) = true).
  { intros a b H.
    apply (increasing_lookup (map normalised all_bytes)
             (N.to_nat (Byte.to_N a)) (N.to_nat (Byte.to_N b)));
      [apply normalised_increasing|lia|by rewrite list_lookup_fmap, all_bytes_lookup..]. }
  split; [apply Hlt|]. split; [|split; vm_compute; reflexivity].
  intros Heq.
  destruct (N.lt_trichotomy (Byte.to_N b1) (Byte.to_N b2)) as [H|[H|H]].
  - apply Hlt in H. rewrite Heq, FloatOrder.ltb_irrefl in H. discriminate.
  - pose proof (Byte.of_to_N b1) as H1. rewrite H, Byte.of_to_N in H1. congruence.
  - apply Hlt in H. rewrite Heq, FloatOrder.ltb_irrefl in H. discriminate.
Qed.

Lemma normalisation_keeps_order_witness :
  Float.ltb (normalised x7f) (normalised x80) = true.
Proof.
  apply (proj1 (normalisation_keeps_order x7f x80)). reflexivity.
Defined.

(** ** Start-up *)

(** X17. [load_model] raises a [FileNotFoundError] when the model file is
    missing and a [RuntimeError] wrapping the cause when Keras cannot load
    it, and leaves the global [model] as it was in both cases; when the
    model loads but reading its shape or outputs for the prints fails, it
    raises the same [RuntimeError] with the global already set; it returns
    normally only with the model that Keras loaded from [MODEL_PATH] in the
    global. *)
Theorem load_model_outcomes `{TensorFlow} (fs : files) (model : option Model) :
  (fs !! MODEL_PATH = None ->
   load_model fs model =
   (Raise (FileNotFoundError
             ("Model file not found: civic_issue_severity_model.h5" ++ newline ++
              "Please ensure civic_issue_severity_model.h5 exists in the project root.")%string),
    model)) /\
  (forall e, is_Some (fs !! MODEL_PATH) -> keras_load_model fs MODEL_PATH = Raise e ->
   load_model fs model =
   (Raise (RuntimeError ("Failed to load model: " ++ str e)%string), model)) /\
  (forall m e, is_Some (fs !! MODEL_PATH) -> keras_load_model fs MODEL_PATH = Ok m ->
   inspect m = Raise e ->
   load_model fs model =
   (Raise (RuntimeError ("Failed to load model: " ++ str e)%string), Some m)) /\
  (fst (load_model fs model) = Ok tt ->
   is_Some (fs !! MODEL_PATH) /\
   exists m, keras_load_model fs MODEL_PATH = Ok m /\ inspect m = Ok tt /\
             snd (load_model fs model) = Some m).
Proof.
  unfold load_model, path_exists. split; [|split; [|split]].
  - intros Hnone. rewrite bool_decide_eq_false_2; [done|].
    rewrite Hnone. by intros [? ?].
  - intros e Hsome Hload. rewrite bool_decide_eq_true_2 by done. simpl. by rewrite Hload.
  - intros m e Hsome Hload Hi. rewrite bool_decide_eq_true_2 by done. simpl.
    by rewrite Hload, Hi.
  - destruct (decide (is_Some (fs !! MODEL_PATH))) as [Hsome|Hnone].
    + rewrite bool_decide_eq_true_2 by done. simpl.
      destruct (keras_load_model fs MODEL_PATH) as [m|e]; [|done].
      destruct (inspect m) as [[]|e] eqn:Hi; [|done].
      intros _. split; [done|]. by exists m.
    + by rewrite bool_decide_eq_false_2.
Qed.

Lemma load_model_outcomes_witness :
  @load_model one_byte_keras ∅ None =
  (Raise (FileNotFoundError
            ("Model file not found: civic_issue_severity_model.h5" ++ newline ++
             "Please ensure civic_issue_severity_model.h5 exists in the project root.")%string),
   None) /\
  @load_model one_byte_keras (<[MODEL_PATH := []]> ∅) None =
  (Raise (RuntimeError
            "Failed to load model: Unable to open file (file signature not found)"), None) /\
  exists m, @keras_load_model one_byte_keras (<[MODEL_PATH := [x89]]> ∅) MODEL_PATH = Ok m /\
            snd (@load_model one_byte_keras (<[MODEL_PATH := [x89]]> ∅) None) = Some m.
Proof.
  split; [|split].
  - apply (proj1 (@load_model_outcomes one_byte_keras ∅ None)). reflexivity.
  - apply (proj1 (proj2 (@load_model_outcomes one_byte_keras (<[MODEL_PATH := []]> ∅) None))
             (OtherError "Unable to open file (file signature not found)")).
    + by eexists.
    + reflexivity.
  - assert (Hok : fst (@load_model one_byte_keras (<[MODEL_PATH := [x89]]> ∅) None) = Ok tt)
      by (vm_compute; reflexivity).
    destruct (proj2 (proj2 (proj2 (@load_model_outcomes one_byte_keras
                                     (<[MODEL_PATH := [x89]]> ∅) None))) Hok)
      as (_ & m & Hm & _ & Hs).
    by exists m.
Defined.

(** X18. An application that serves requests has its model.  The
    application starts only if [load_model] returns; it does not start when
    the model file is missing, when Keras cannot load it, or when reading
    the loaded model for the prints fails.  Once it has started, the global
    holds the model that Keras loaded from [MODEL_PATH], and [GET /health]
    answers "healthy" with [model_loaded = true]: the answer
    "model_not_loaded" is never served after a start-up. *)
Theorem served_application_is_healthy `{TensorFlow} (fs : files) :
  (startup fs = None <->
   fs !! MODEL_PATH = None \/
   (exists e, keras_load_model fs MODEL_PATH = Raise e) \/
   (exists m e, keras_load_model fs MODEL_PATH = Ok m /\ inspect m = Raise e)) /\
  (forall model : option Model,
     startup fs = Some model ->
     is_Some (fs !! MODEL_PATH) /\
     (exists m, keras_load_model fs MODEL_PATH = Ok m /\ inspect m = Ok tt /\
                model = Some m) /\
     health_check model = {| status := "healthy"; model_loaded := true |} /\
     GET_health model =
     {| status_code := 200;
        body := [("status", JStr "healthy"); ("model_loaded", JBool true)] |}).
Proof.
  unfold startup, load_model, path_exists.
  destruct (decide (is_Some (fs !! MODEL_PATH))) as [Hsome|Hnone].
  - rewrite bool_decide_eq_true_2 by done. simpl.
    assert (Hfile : fs !! MODEL_PATH <> None) by (by destruct Hsome as [? ->]).
    destruct (keras_load_model fs MODEL_PATH) as [m|e]; simpl.
    + destruct (inspect m) as [[]|e] eqn:Hinspect; simpl.
      * split.
        -- split; [done|]. intros [?|[[e ?]|(m' & e & [= <-] & He)]]; [done..|].
           rewrite Hinspect in He. discriminate He.
        -- intros model [= <-]. split; [done|]. split; [by exists m|done].
      * split; [|done]. split; [|done]. intros _. right. right. by exists m, e.
    + split; [|done]. split; [|done]. intros _. right. left. by exists e.
  - rewrite bool_decide_eq_false_2 by done. simpl.
    split; [|done]. split; [|done]. intros _. left.
    destruct (fs !! MODEL_PATH) eqn:E; [|done]. destruct Hnone. by eexists.
Qed.

Lemma served_application_is_healthy_witness :
  @startup one_byte_keras ∅ = None /\
  exists model,
    @startup one_byte_keras (<[MODEL_PATH := [x89]]> ∅) = Some model /\
    health_check model = {| status := "healthy"; model_loaded := true |}.
Proof.
  split.
  - apply (proj1 (@served_application_is_healthy one_byte_keras ∅)). by left.
  - exists (Some (constant_model (PredSeq [[example_issue_probs]; [example_severity_probs]]))).
    assert (Hstart :
      @startup one_byte_keras (<[MODEL_PATH := [x89]]> ∅) =
      Some (Some (constant_model (PredSeq [[example_issue_probs]; [example_severity_probs]]))))
      by (vm_compute; reflexivity).
    split; [exact Hstart|].
    apply (proj2 (@served_application_is_healthy one_byte_keras (<[MODEL_PATH := [x89]]> ∅))
             _ Hstart).
Defined.

(** ** Risk labels *)

Lemma where_is_risk_of (labels : list Z) :
  where_scalar_tensor (tensor_equal labels 0) (Float.float32_of_Z 20)
    (where_scalars (tensor_equal labels 1) (Float.float32_of_Z 55) (Float.float32_of_Z 90)) =
  map risk_of labels.
Proof.
  unfold where_scalar_tensor, where_scalars, tensor_equal.
  induction labels as [|l labels IH]; [done|].
  cbn [map zip_with]. rewrite IH. unfold risk_of at 2.
  by destruct (l =? 0), (l =? 1).
Qed.

(** X19. [add_risk_label] returns the images and the labels as they are,
    under the key ["severity"], and under ["risk"] one value per label: 20
    for label 0, 55 for label 1 and 90 for every other label, out-of-range
    and negative ones included; on labels from 0 upwards a higher label
    never has a lower risk. *)
Theorem add_risk_label_tabulates {Images : Type} (images : Images) (labels : list Z) :
  fst (add_risk_label images labels) = images /\
  snd (add_risk_label images labels) !! "severity" = Some (IntTensor labels) /\
  snd (add_risk_label images labels) !! "risk" = Some (FloatTensor (map risk_of labels)) /\
  length (map risk_of labels) = length labels /\
  (forall l, l <> 0 -> l <> 1 -> risk_of l = Float.float32_of_Z 90) /\
  (forall a b, 0 <= a -> a <= b -> Float.leb (risk_of a) (risk_of b) = true).
Proof.
  unfold add_risk_label. rewrite where_is_risk_of. simpl.
  split; [done|]. split; [by rewrite lookup_insert_eq|].
  split; [by rewrite lookup_insert_ne, lookup_insert_eq|].
  split; [apply length_map|]. split.
  - intros l H0 H1. unfold risk_of.
    destruct (Z.eqb_spec l 0); [done|]. by destruct (Z.eqb_spec l 1).
  - intros a b Ha Hab. unfold risk_of.
    destruct (Z.eqb_spec a 0), (Z.eqb_spec b 0), (Z.eqb_spec a 1), (Z.eqb_spec b 1);
      try lia; vm_compute; reflexivity.
Qed.

Lemma add_risk_label_tabulates_witness :
  snd (add_risk_label tt [0; 1; 2; 7; -1]) !! "risk" =
  Some (FloatTensor (map Float.float32_of_Z [20; 55; 90; 90; 90])).
Proof.
  apply (proj1 (proj2 (proj2 (add_risk_label_tabulates tt [0; 1; 2; 7; -1])))).
Defined.

(** ** The conversion scripts *)

(** X20. [convert_to_tflit.py] writes no file but
    [civic_issue_severity_model_fp16.tflite]: every other path, the model
    file among them, is as before.  When it fails, for a missing model
    file, a failed load or a failed conversion, the file system is wholly
    unchanged, so an earlier output is not overwritten; when it succeeds the
    output holds what the converter made of the loaded model. *)
Theorem conversion_writes_only_the_output `{TensorFlow} (fs : files) :
  (forall p, p <> OUTPUT_PATH ->
   snd (convert_to_tflit fs) !! p = fs !! p) /\
  snd (convert_to_tflit fs) !! MODEL_PATH = fs !! MODEL_PATH /\
  (forall e, fst (convert_to_tflit fs) = Raise e -> snd (convert_to_tflit fs) = fs) /\
  (fs !! MODEL_PATH = None ->
   convert_to_tflit fs =
   (Raise (FileNotFoundError
             (cross_mark ++ " Model file not found: civic_issue_severity_model.h5")%string),
    fs)) /\
  (fst (convert_to_tflit fs) = Ok tt ->
   exists model data,
     keras_load_model fs MODEL_PATH = Ok model /\ tflite_convert model = Ok data /\
     snd (convert_to_tflit fs) !! OUTPUT_PATH = Some data).
Proof.
  unfold convert_to_tflit, path_exists, write_file.
  destruct (decide (is_Some (fs !! MODEL_PATH))) as [Hsome|Hnone].
  - rewrite bool_decide_eq_true_2 by done. simpl.
    destruct (keras_load_model fs MODEL_PATH) as [model|e] eqn:Hload; simpl;
      [destruct (tflite_convert model) as [data|e] eqn:Hconv; simpl|].
    + split; [intros p Hp; by rewrite lookup_insert_ne|].
      split; [by rewrite lookup_insert_ne by (by unfold OUTPUT_PATH, MODEL_PATH)|].
      split; [done|].
      split; [intros Hn; by apply eq_None_not_Some in Hn|].
      intros _. exists model, data. split; [done|]. split; [exact Hconv|].
      apply lookup_insert_eq.
    + repeat split; try done. intros Hn. by apply eq_None_not_Some in Hn.
    + repeat split; try done. intros Hn. by apply eq_None_not_Some in Hn.
  - rewrite bool_decide_eq_false_2 by done. simpl. repeat split; done.
Qed.

Lemma conversion_writes_only_the_output_witness :
  snd (@convert_to_tflit one_byte_keras
         (<[MODEL_PATH := [x89]]> (<["notes.txt" := [x41]]> ∅))) !! "notes.txt" = Some [x41] /\
  exists model data,
    @keras_load_model one_byte_keras
      (<[MODEL_PATH := [x89]]> (<["notes.txt" := [x41]]> ∅)) MODEL_PATH = Ok model /\
    @tflite_convert one_byte_keras model = Ok data /\
    snd (@convert_to_tflit one_byte_keras
           (<[MODEL_PATH := [x89]]> (<["notes.txt" := [x41]]> ∅))) !! OUTPUT_PATH = Some data.
Proof.
  pose proof (@conversion_writes_only_the_output one_byte_keras
                (<[MODEL_PATH := [x89]]> (<["notes.txt" := [x41]]> ∅)))
    as (Hframe & _ & _ & _ & Hok).
  split.
  - rewrite Hframe by done. vm_compute. reflexivity.
  - apply Hok. vm_compute. reflexivity.
Defined.

(** X21. Where the model file exists, the two conversion scripts do the
    same: [convert_to_tflite.py] of the deployment and [convert_to_tflit.py]
    end with the same outcome and the same file system. *)
Theorem conversion_scripts_agree `{TensorFlow} (fs : files) :
  is_Some (fs !! MODEL_PATH) -> convert_to_tflite fs = convert_to_tflit fs.
Proof.
  intros Hsome. unfold convert_to_tflite, convert_to_tflit, path_exists.
  by rewrite bool_decide_eq_true_2.
Qed.

Lemma conversion_scripts_agree_witness :
  @convert_to_tflite one_byte_keras (<[MODEL_PATH := [x89]]> ∅) =
  @convert_to_tflit one_byte_keras (<[MODEL_PATH := [x89]]> ∅).
Proof.
  apply (@conversion_scripts_agree one_byte_keras). by eexists.
Defined.
